(** * Access gate, HTTP interceptors and cache write-propagation

  A shallow embedding of the decision logic of the to-do application:

  - [Proxy]        : [src/proxy.ts], the [authorized] callback handed to
                     [withAuth], [pages.signIn] and [config.matcher];
  - [Interceptors] : [src/lib/axios/interceptors.ts] and
                     [src/lib/axios/client.ts], the request and response
                     interceptors of the axios instance;
  - [TodoApi]      : the six facade operations ([todoApi]);
  - [QueryClient]  : the part of the TanStack query cache the mutation hooks
                     drive ([setQueryData], [invalidateQueries]);
  - [UseTodos]     : the [onSuccess] handlers of [useCreateTodo] and
                     [useDeleteTodo].

  JavaScript strings are [string], numbers that hold ids and HTTP statuses
  are [Z], objects used as dictionaries are [gmap]. *)

From Stdlib Require Import ZArith String Ascii List Bool Lia.
From stdpp Require Import base option list gmap strings fin_maps pretty.

Local Open Scope string_scope.

(** ** JavaScript string helpers *)

Module Js.

(** [s.startsWith(searchString)]. *)
Definition startsWith (s searchString : string) : bool :=
  String.prefix searchString s.

(** [xs.some(p)]. *)
Definition some {A : Type} (p : A -> bool) (xs : list A) : bool :=
  existsb p xs.

End Js.

(** ** [src/proxy.ts] *)

Module Proxy.

(** The decoded session token that [withAuth] hands to the callback. *)
Record JWT := mkJWT {
  sub : string;
  email : string;
  name : string;
  exp : Z
}.

(** What the request carries, as the spec distinguishes it. *)
Inductive CredentialState :=
| PresentValid (t : JWT)
| Absent
| PresentInvalid.

(** [withAuth] decodes the session cookie before it calls [authorized]:
    the callback receives the token, or [null] when the cookie is missing
    or does not verify. *)
Definition getToken (c : CredentialState) : option JWT :=
  match c with
  | PresentValid t => Some t
  | Absent => None
  | PresentInvalid => None
  end.

Definition publicRoutes : list string := ["/login"; "/api/auth"].

(** [publicRoutes.some((route) => req.nextUrl.pathname.startsWith(route))] *)
Definition isPublicRoute (pathname : string) : bool :=
  Js.some (fun route => Js.startsWith pathname route) publicRoutes.

(** The [authorized] callback. [if (token)] tests an object or [null]. *)
Definition authorized (token : option JWT) (pathname : string) : bool :=
  match token with
  | Some _ => true
  | None => if isPublicRoute pathname then true else false
  end.

(** [pages.signIn] *)
Definition signIn : string := "/login".

(** What the proxy does with a request: let it through, or answer with a
    redirect to a page of the same origin, carrying query parameters. *)
Inductive Decision :=
| Admit
| RedirectTo (target : string) (searchParams : list (string * string)).

(** [req.nextUrl]: the path and the query string (empty, or from its
    question mark on). The application sets no [basePath]. *)
Record NextRequest := mkRequest {
  nextUrl_pathname : string;
  nextUrl_search : string
}.

(** *** The middleware of next-auth that [withAuth] installs

    [pages.error] is not configured, so the error page is the default one;
    the auth path is the path of [NEXTAUTH_URL], which in the documented
    setup ([http://localhost:3000]) is the default [/api/auth]. *)
Definition errorPage : string := "/api/auth/error".
Definition authPath : string := "/api/auth".
Definition publicPaths : list string := ["/_next"; "/favicon.ico"].

(** The paths next-auth lets through before it looks at any credential:
    [pathname.startsWith(authPath) ||
     [signInPage, errorPage].includes(pathname) ||
     publicPaths.some((p) => pathname.startsWith(p))]. *)
Definition never_requires_auth (pathname : string) : bool :=
  Js.startsWith pathname authPath
  || Js.some (fun page => String.eqb page pathname) [signIn; errorPage]
  || Js.some (fun p => Js.startsWith pathname p) publicPaths.

(** [handleMiddleware]: the early return; the redirect to the error page
    when no signing secret is configured ([secretConfigured] is the
    truthiness of [NEXTAUTH_SECRET]); then the token, the [authorized]
    callback, and either the wrapped [proxy] function, which returns
    nothing, or the redirect to the sign-in page with the requested address
    as [callbackUrl]. *)
Definition handleMiddleware (secretConfigured : bool) (c : CredentialState)
  (req : NextRequest) : Decision :=
  if never_requires_auth (nextUrl_pathname req) then Admit
  else if negb secretConfigured
  then RedirectTo errorPage [("error", "Configuration")]
  else if authorized (getToken c) (nextUrl_pathname req) then Admit
  else RedirectTo signIn
         [("callbackUrl", nextUrl_pathname req ++ nextUrl_search req)].

(** [withAuth] in the configured deployment (signing secret set), on a
    request without a query string. *)
Definition withAuth (c : CredentialState) (pathname : string) : Decision :=
  handleMiddleware true c
    {| nextUrl_pathname := pathname; nextUrl_search := "" |}.

(** *** [config.matcher]

    The third entry is the regular expression
    a slash, the negative lookahead
    [(?!login|api/auth|_next/static|_next/image|favicon.ico)] over five
    alternatives, then any characters up to the end of the path. *)

(** One position of an alternative: a literal character, or [.], which
    matches any character but a line terminator. *)
Inductive PatChar :=
| Lit (c : ascii)
| AnyChar.

Definition is_line_terminator (c : ascii) : bool :=
  Ascii.eqb c "010" || Ascii.eqb c "013".

(** Does the alternative match at the start of [s]? *)
Fixpoint lookahead (pat : list PatChar) (s : string) : bool :=
  match pat, s with
  | [], _ => true
  | _ :: _, EmptyString => false
  | Lit c :: pat', String a s' => Ascii.eqb c a && lookahead pat' s'
  | AnyChar :: pat', String a s' =>
      negb (is_line_terminator a) && lookahead pat' s'
  end.

Definition lit (s : string) : list PatChar :=
  List.map Lit (list_ascii_of_string s).

Definition excluded : list (list PatChar) :=
  [ lit "login"; lit "api/auth"; lit "_next/static"; lit "_next/image";
    (lit "favicon" ++ [AnyChar] ++ lit "ico")%list ].

(** Any run of characters without a line terminator, up to the end. *)
Fixpoint dot_star (s : string) : bool :=
  match s with
  | EmptyString => true
  | String a s' => negb (is_line_terminator a) && dot_star s'
  end.

(** ["/"] *)
Definition matches_root (pathname : string) : bool :=
  String.eqb pathname "/".

(** ["/api/protected/:path*"]: the namespace itself or anything below it. *)
Definition matches_api_protected (pathname : string) : bool :=
  String.eqb pathname "/api/protected"
  || Js.startsWith pathname "/api/protected/".

(** The catch-all entry with its exclusion list. *)
Definition matches_catch_all (pathname : string) : bool :=
  match pathname with
  | String "/" rest =>
      negb (Js.some (fun alt => lookahead alt rest) excluded) && dot_star rest
  | _ => false
  end.

Definition matcher (pathname : string) : bool :=
  matches_root pathname
  || matches_api_protected pathname
  || matches_catch_all pathname.

(** The proxy runs only on the paths the matcher selects; every other
    request goes straight to its route. *)
Definition middleware (secretConfigured : bool) (c : CredentialState)
  (req : NextRequest) : Decision :=
  if matcher (nextUrl_pathname req)
  then handleMiddleware secretConfigured c req
  else Admit.

(** The same in the configured deployment, on a request without a query
    string. *)
Definition proxy (c : CredentialState) (pathname : string) : Decision :=
  if matcher pathname then withAuth c pathname else Admit.

End Proxy.

(** ** [src/types/index.ts] *)

Module Types.

Record Todo := mkTodo {
  userId : Z;
  id : Z;
  title : string;
  completed : bool
}.

Record CreateTodoPayload := mkCreate {
  c_userId : Z;
  c_title : string;
  c_completed : bool
}.

Record UpdateTodoPayload := mkUpdate {
  u_userId : option Z;
  u_title : option string;
  u_completed : option bool
}.

End Types.

(** ** [src/config/api.config.ts] *)

Module ApiConfig.

Definition TIMEOUT : Z := 30000.
Definition RETRY_ATTEMPTS : nat := 1.
Definition ROUTES_TODOS : string := "/todos".

End ApiConfig.

(** ** [src/lib/axios/interceptors.ts] and [src/lib/axios/client.ts] *)

Module Interceptors.
Import Types.

Inductive Method := GET | POST | PATCH | DELETE.

Inductive Body :=
| CreateBody (p : CreateTodoPayload)
| UpdateBody (p : UpdateTodoPayload).

Record AxiosRequestConfig := mkConfig {
  method : Method;
  url : string;
  params : list (string * string);
  headers : gmap string string;
  data : option Body
}.

Inductive Payload :=
| NoContent
| OneTodo (t : Todo)
| ManyTodos (ts : list Todo).

Record AxiosResponse := mkResponse {
  status : Z;
  payload : Payload
}.

(** An [AxiosError]; [response] is undefined when nothing came back. *)
Record AxiosError := mkError {
  response : option AxiosResponse
}.

(** A settled promise. *)
Inductive Settled (A : Type) :=
| Resolved (a : A)
| Rejected (e : AxiosError).
Arguments Resolved {A} a.
Arguments Rejected {A} e.

(** The browser globals the interceptors touch. *)
Record Window := mkWindow {
  localStorage : gmap string string;
  location_href : string
}.

(** The runtime: [window] is undefined outside a browser; [console] is what
    [console.error] has printed; [wire] lists the requests handed to the
    transport, oldest first. *)
Record Runtime := mkRuntime {
  window : option Window;
  console : list string;
  wire : list AxiosRequestConfig
}.

(** [typeof window !== "undefined" ? localStorage.getItem("authToken") : null] *)
Definition authToken (rt : Runtime) : option string :=
  match window rt with
  | Some w => localStorage w !! "authToken"
  | None => None
  end.

(** [if (token)] on a string or [null]: the empty string is falsy. *)
Definition truthy (token : option string) : bool :=
  match token with
  | Some t => negb (String.eqb t "")
  | None => false
  end.

Definition set_header (k v : string) (config : AxiosRequestConfig)
  : AxiosRequestConfig :=
  {| method := method config; url := url config; params := params config;
     headers := <[k := v]> (headers config); data := data config |}.

(** The request interceptor. *)
Definition onRequest (rt : Runtime) (config : AxiosRequestConfig)
  : AxiosRequestConfig :=
  let token := authToken rt in
  let config1 :=
    match token with
    | Some t =>
        if truthy token
        then set_header "Authorization" ("Bearer " ++ t) config
        else config
    | None => config
    end in
  set_header "Content-Type" "application/json" config1.

(** [error.response?.status === code] *)
Definition status_is (error : AxiosError) (code : Z) : bool :=
  match response error with
  | Some r => Z.eqb (status r) code
  | None => false
  end.

(** [localStorage.removeItem("authToken"); window.location.href = "/login"],
    under [typeof window !== "undefined"]. *)
Definition purge_and_redirect (rt : Runtime) : Runtime :=
  match window rt with
  | Some w =>
      {| window := Some {| localStorage := delete "authToken" (localStorage w);
                           location_href := "/login" |};
         console := console rt; wire := wire rt |}
  | None => rt
  end.

Definition console_error (msg : string) (rt : Runtime) : Runtime :=
  {| window := window rt; console := (console rt ++ [msg])%list; wire := wire rt |}.

(** The response interceptor, success side. *)
Definition onResponse (r : AxiosResponse) : AxiosResponse := r.

(** The response interceptor, error side: three independent tests on the
    status, then the rejection. *)
Definition onResponseError (rt : Runtime) (error : AxiosError)
  : Runtime * Settled AxiosResponse :=
  let rt1 := if status_is error 401 then purge_and_redirect rt else rt in
  let rt2 :=
    if status_is error 403 then console_error "Access forbidden" rt1 else rt1 in
  let rt3 :=
    if status_is error 429
    then console_error "Rate limit exceeded" rt2 else rt2 in
  (rt3, Rejected error).

(** [axios.create] defaults of [client.ts]. *)
Definition default_headers : gmap string string :=
  {[ "Content-Type" := "application/json" ]}.

(** The transport: what the remote resource answers to a request, or
    nothing when it cannot be reached. *)
Definition Adapter := AxiosRequestConfig -> option AxiosResponse.

(** axios' default [validateStatus]. *)
Definition validateStatus (s : Z) : bool := Z.leb 200 s && Z.ltb s 300.

(** axios' [settle]: [!response.status || validateStatus(response.status)];
    a status of zero is falsy and resolves. *)
Definition settles (s : Z) : bool := Z.eqb s 0 || validateStatus s.

Definition send (config : AxiosRequestConfig) (rt : Runtime) : Runtime :=
  {| window := window rt; console := console rt;
     wire := (wire rt ++ [config])%list |}.

(** One call on the instance: request interceptor, one hand-over to the
    transport, then the response interceptor on the side [settle]
    selects. *)
Definition request (adapter : Adapter) (rt : Runtime)
  (config : AxiosRequestConfig) : Runtime * Settled AxiosResponse :=
  let config' := onRequest rt config in
  let rt1 := send config' rt in
  match adapter config' with
  | Some r =>
      if settles (status r)
      then (rt1, Resolved (onResponse r))
      else onResponseError rt1 {| response := Some r |}
  | None => onResponseError rt1 {| response := None |}
  end.

End Interceptors.

(** ** [todoApi]: the facade operations *)

Module TodoApi.
Import Types Interceptors.

Inductive Call :=
| getAllTodos
| getTodoById (id : Z)
| getTodosByUserId (userId : Z)
| createTodo (p : CreateTodoPayload)
| updateTodo (id : Z) (p : UpdateTodoPayload)
| deleteTodo (id : Z).

Definition todo_url (id : Z) : string :=
  ApiConfig.ROUTES_TODOS ++ "/" ++ pretty id.

Definition base (m : Method) (u : string) : AxiosRequestConfig :=
  {| method := m; url := u; params := []; headers := default_headers;
     data := None |}.

Definition config_of (c : Call) : AxiosRequestConfig :=
  match c with
  | getAllTodos => base GET ApiConfig.ROUTES_TODOS
  | getTodoById id => base GET (todo_url id)
  | getTodosByUserId userId =>
      {| method := GET; url := ApiConfig.ROUTES_TODOS;
         params := [("userId", pretty userId)];
         headers := default_headers; data := None |}
  | createTodo p =>
      {| method := POST; url := ApiConfig.ROUTES_TODOS; params := [];
         headers := default_headers; data := Some (CreateBody p) |}
  | updateTodo id p =>
      {| method := PATCH; url := todo_url id; params := [];
         headers := default_headers; data := Some (UpdateBody p) |}
  | deleteTodo id => base DELETE (todo_url id)
  end.

(** [const response = await axiosClient.<verb>(...); return response.data] *)
Definition call (adapter : Adapter) (rt : Runtime) (c : Call)
  : Runtime * Settled Payload :=
  match request adapter rt (config_of c) with
  | (rt', Resolved r) =>
      (rt', Resolved (match c with deleteTodo _ => NoContent | _ => payload r end))
  | (rt', Rejected e) => (rt', Rejected e)
  end.

(** Transmissions a call added to the wire beyond the first. *)
Definition retries (before after : Runtime) : nat :=
  length (wire after) - length (wire before) - 1.

End TodoApi.

(** ** The query cache behind [useQueryClient] *)

Module QueryClient.
Import Types.

(** A query key is an array of strings and numbers. *)
Inductive KeyPart :=
| KStr (s : string)
| KNum (n : Z).

Definition QueryKey := list KeyPart.

#[global] Instance KeyPart_eq_dec : EqDecision KeyPart.
Proof. solve_decision. Defined.

#[global] Instance KeyPart_countable : Countable KeyPart.
Proof.
  refine (inj_countable'
            (fun p => match p with KStr s => inl s | KNum n => inr n end)
            (fun x => match x with inl s => KStr s | inr n => KNum n end) _).
  intros []; reflexivity.
Defined.

(** What the to-do queries store: the list queries an array, the
    single-item query one object. *)
Inductive QueryData :=
| DTodos (ts : list Todo)
| DTodo (t : Todo).

(** The state of one query; [data] is undefined until a fetch or a write
    succeeds. *)
Record QueryState := mkQuery {
  data : option QueryData;
  isInvalidated : bool
}.

Abbreviation QueryCache := (gmap QueryKey QueryState).

(** A callback either completes or throws. *)
Inductive Completion (A : Type) :=
| Normal (a : A)
| Throw (e : string).
Arguments Normal {A} a.
Arguments Throw {A} e.

(** Cache-threading computations that may throw. *)
Definition M (A : Type) : Type := QueryCache -> Completion (A * QueryCache).

Definition ret {A : Type} (a : A) : M A := fun c => Normal (a, c).

Definition throw {A : Type} (e : string) : M A := fun _ => Throw e.

Definition bind {A B : Type} (m : M A) (k : A -> M B) : M B :=
  fun c =>
    match m c with
    | Normal (a, c') => k a c'
    | Throw e => Throw e
    end.

Notation "x <- m ;; k" := (bind m (fun x => k))
  (at level 90, m at level 80, right associativity).
Notation "m ;;; k" := (bind m (fun _ => k))
  (at level 90, right associativity).

(** [queryClient.getQueryData(key)] *)
Definition getQueryData (c : QueryCache) (key : QueryKey) : option QueryData :=
  match c !! key with
  | Some q => data q
  | None => None
  end.

(** A successful write stores the data and clears the invalidation mark. *)
Definition setData (d : QueryData) : QueryState :=
  {| data := Some d; isInvalidated := false |}.

(** [queryClient.setQueryData(key, updater)]: the updater sees the data
    stored under [key]; an undefined result writes nothing; any other
    result is stored under [key], building the query when it is missing. *)
Definition setQueryData (key : QueryKey)
  (updater : option QueryData -> M (option QueryData)) : M unit :=
  fun c =>
    match updater (getQueryData c key) c with
    | Normal (Some d, c') => Normal (tt, <[key := setData d]> c')
    | Normal (None, c') => Normal (tt, c')
    | Throw e => Throw e
    end.

(** [partialMatchKey(a, b)]: the filter key [b] is a prefix of the query
    key [a]. *)
Fixpoint partialMatchKey (a b : QueryKey) : bool :=
  match b, a with
  | [], _ => true
  | _ :: _, [] => false
  | y :: b', x :: a' => bool_decide (x = y) && partialMatchKey a' b'
  end.

Definition invalidate (q : QueryState) : QueryState :=
  {| data := data q; isInvalidated := true |}.

(** [queryClient.invalidateQueries({ queryKey })]: every query of the
    family is marked invalidated. *)
Definition mark_family (queryKey : QueryKey) (c : QueryCache) : QueryCache :=
  map_imap (fun k q =>
              Some (if partialMatchKey k queryKey then invalidate q else q)) c.

Definition invalidateQueries (queryKey : QueryKey) : M unit :=
  fun c => Normal (tt, mark_family queryKey c).

End QueryClient.

(** ** [useTodos]: keys and mutation success handlers *)

Module UseTodos.
Import Types QueryClient.

Definition TODOS_QUERY_KEY : QueryKey := [KStr "todos"].

Definition SINGLE_TODO_QUERY_KEY (id : Z) : QueryKey :=
  (TODOS_QUERY_KEY ++ [KNum id])%list.

Definition USER_TODOS_QUERY_KEY (userId : Z) : QueryKey :=
  (TODOS_QUERY_KEY ++ [KStr "user"; KNum userId])%list.

(** [useCreateTodo], [onSuccess]. Spreading a value that is not an array
    throws. *)
Definition createTodo_onSuccess (newTodo : Todo) : M unit :=
  setQueryData TODOS_QUERY_KEY (fun oldData =>
    match oldData with
    | Some (DTodos old) => ret (Some (DTodos (newTodo :: old)))
    | Some (DTodo _) => throw "TypeError: oldData is not iterable"
    | None => ret (Some (DTodos [newTodo]))
    end) ;;;
  invalidateQueries (USER_TODOS_QUERY_KEY (userId newTodo)).

(** [useDeleteTodo], [onSuccess]; the invalidation runs inside the
    updater, before the filtered list is stored. *)
Definition deleteTodo_onSuccess (id' : Z) : M unit :=
  setQueryData TODOS_QUERY_KEY (fun oldData =>
    match oldData with
    | None => ret (Some (DTodos []))
    | Some (DTodos old) =>
        let todoToDelete := List.find (fun todo => Z.eqb (id todo) id') old in
        let filtered :=
          List.filter (fun todo => negb (Z.eqb (id todo) id')) old in
        match todoToDelete with
        | Some t => invalidateQueries (USER_TODOS_QUERY_KEY (userId t))
        | None => ret tt
        end ;;;
        ret (Some (DTodos filtered))
    | Some (DTodo _) => throw "TypeError: oldData.find is not a function"
    end).

(** [useUpdateTodo], [onSuccess]: the single-item entry is overwritten with
    the returned item, the aggregate list is mapped (or started, when it is
    missing), then the family of the returned item's owner is invalidated. *)
Definition updateTodo_onSuccess (updatedTodo : Todo) : M unit :=
  setQueryData (SINGLE_TODO_QUERY_KEY (id updatedTodo))
    (fun _ => ret (Some (DTodo updatedTodo))) ;;;
  setQueryData TODOS_QUERY_KEY (fun oldData =>
    match oldData with
    | None => ret (Some (DTodos [updatedTodo]))
    | Some (DTodos old) =>
        ret (Some (DTodos
          (List.map (fun todo =>
                       if Z.eqb (id todo) (id updatedTodo)
                       then updatedTodo else todo) old)))
    | Some (DTodo _) => throw "TypeError: oldData.map is not a function"
    end) ;;;
  invalidateQueries (USER_TODOS_QUERY_KEY (userId updatedTodo)).

(** The aggregate entry holds an array whenever it holds anything. *)
Definition todos_entry_typed (c : QueryCache) : Prop :=
  forall t, getQueryData c TODOS_QUERY_KEY <> Some (DTodo t).

End UseTodos.

(** ** [todosSlice]: the Redux slice *)

Module TodosSlice.
Import Types.

Record TodosState := mkState {
  items : list Todo;
  loading : bool;
  error : option string
}.

Definition initialState : TodosState :=
  {| items := []; loading := false; error := None |}.

(** [xs.findIndex(p)], with [None] for [-1]. *)
Fixpoint findIndex {A : Type} (p : A -> bool) (xs : list A) : option nat :=
  match xs with
  | [] => None
  | x :: xs' =>
      if p x then Some 0%nat
      else match findIndex p xs' with
           | Some i => Some (S i)
           | None => None
           end
  end.

Definition setTodos (state : TodosState) (payload : list Todo) : TodosState :=
  {| items := payload; loading := loading state; error := None |}.

(** [state.items.push(action.payload)] *)
Definition addTodo (state : TodosState) (payload : Todo) : TodosState :=
  {| items := (items state ++ [payload])%list; loading := loading state;
     error := error state |}.

Definition updateTodo (state : TodosState) (payload : Todo) : TodosState :=
  match findIndex (fun todo => Z.eqb (id todo) (id payload)) (items state) with
  | Some index =>
      {| items := <[index := payload]> (items state);
         loading := loading state; error := error state |}
  | None => state
  end.

Definition deleteTodo (state : TodosState) (payload : Z) : TodosState :=
  {| items := List.filter (fun todo => negb (Z.eqb (id todo) payload))
                          (items state);
     loading := loading state; error := error state |}.

Definition setLoading (state : TodosState) (payload : bool) : TodosState :=
  {| items := items state; loading := payload; error := error state |}.

Definition setError (state : TodosState) (payload : option string)
  : TodosState :=
  {| items := items state; loading := loading state; error := payload |}.

(** The actions [createSlice] generates, one per case reducer. *)
Inductive Action :=
| SetTodos (payload : list Todo)
| AddTodo (payload : Todo)
| UpdateTodo (payload : Todo)
| DeleteTodo (payload : Z)
| SetLoading (payload : bool)
| SetError (payload : option string).

(** [todosSlice.reducer] *)
Definition reducer (state : TodosState) (action : Action) : TodosState :=
  match action with
  | SetTodos p => setTodos state p
  | AddTodo p => addTodo state p
  | UpdateTodo p => updateTodo state p
  | DeleteTodo p => deleteTodo state p
  | SetLoading p => setLoading state p
  | SetError p => setError state p
  end.

End TodosSlice.

(** ** [useAuth] and the client-side guards of the two pages *)

Module ClientGuards.

(** The [status] that [useSession] reports. *)
Inductive SessionStatus :=
| authenticated
| loading
| unauthenticated.

(** [status === "authenticated"] *)
Definition isAuthenticated (status : SessionStatus) : bool :=
  match status with
  | authenticated => true
  | _ => false
  end.

(** [status === "loading"] *)
Definition isLoading (status : SessionStatus) : bool :=
  match status with
  | loading => true
  | _ => false
  end.

(** The effect of [LoginPage]: where it sends the router, if anywhere. *)
Definition LoginPage_effect (status : SessionStatus) : option string :=
  if negb (isLoading status) && isAuthenticated status
  then Some "/" else None.

(** The effect of [Home]. *)
Definition Home_effect (status : SessionStatus) : option string :=
  if negb (isLoading status) && negb (isAuthenticated status)
  then Some "/login" else None.

End ClientGuards.

(** ** The classification the specification words describe *)

Module SpecWords.

(** Exact-segment matching, as the specification words it: a path is under
    a public route when it is that route or continues it after a slash. *)
Definition isPublicRoute_by_segment (pathname : string) : bool :=
  Js.some (fun route =>
             String.eqb pathname route || Js.startsWith pathname (route ++ "/"))
          Proxy.publicRoutes.

End SpecWords.

(** ** Sample runtimes and caches *)

Module Fixtures.
Import Types Interceptors QueryClient UseTodos.

(** A browser that holds the token [abc]. *)
Definition browser_with_token : Runtime :=
  {| window := Some {| localStorage := {[ "authToken" := "abc" ]};
                       location_href := "/" |};
     console := []; wire := [] |}.

(** A server-side runtime: no [window]. *)
Definition server_side : Runtime :=
  {| window := None; console := []; wire := [] |}.

(** A remote resource that answers every request with the same status. *)
Definition answers (code : Z) : Adapter :=
  fun _ => Some {| status := code; payload := NoContent |}.

Definition buy_milk : Todo :=
  {| userId := 7; id := 1; title := "buy milk"; completed := false |}.

Definition walk_dog : Todo :=
  {| userId := 9; id := 2; title := "walk dog"; completed := true |}.

Definition fresh (d : QueryData) : QueryState :=
  {| data := Some d; isInvalidated := false |}.

(** A cache with the aggregate list, one owner list and one single item. *)
Definition warm_cache : QueryCache :=
  <[ TODOS_QUERY_KEY := fresh (DTodos [buy_milk]) ]>
    (<[ USER_TODOS_QUERY_KEY 7 := fresh (DTodos [buy_milk]) ]>
       (<[ USER_TODOS_QUERY_KEY 9 := fresh (DTodos []) ]>
          (<[ SINGLE_TODO_QUERY_KEY 1 := fresh (DTodo buy_milk) ]> ∅))).

(** A cache that has the owner lists but no aggregate list. *)
Definition cold_cache : QueryCache :=
  <[ USER_TODOS_QUERY_KEY 7 := fresh (DTodos [buy_milk]) ]> ∅.

End Fixtures.

(** ** Further samples *)

Module MoreFixtures.
Import Types Interceptors QueryClient UseTodos Fixtures.

(** A second copy of item 1, as a stale duplicate would look. *)
Definition buy_milk_again : Todo :=
  {| userId := 7; id := 1; title := "buy milk (copy)"; completed := false |}.

Definition buy_milk_done : Todo :=
  {| userId := 7; id := 1; title := "buy milk"; completed := true |}.

Definition two_copies : TodosSlice.TodosState :=
  {| TodosSlice.items := [walk_dog; buy_milk; buy_milk_again];
     TodosSlice.loading := false; TodosSlice.error := Some "stale" |}.

(** A remote resource that cannot be reached. *)
Definition unreachable : Adapter := fun _ => None.

(** A remote resource that answers with the whole collection. *)
Definition serves (ts : list Todo) : Adapter :=
  fun _ => Some {| status := 200; payload := ManyTodos ts |}.

End MoreFixtures.

(** * Properties *)

Module JsFacts.
Import Js.

Lemma startsWith_app (r s : string) : startsWith (r ++ s) r = true.
Proof.
  unfold startsWith. induction r as [|a r IH]; simpl.
  - destruct s; reflexivity.
  - destruct (Ascii.ascii_dec a a) as [_|Hne]; [exact IH | contradiction].
Qed.

Lemma startsWith_inv (p r : string) :
  startsWith p r = true -> exists s, p = r ++ s.
Proof.
  unfold startsWith. revert p. induction r as [|a r IH]; intros p H.
  - exists p. reflexivity.
  - destruct p as [|b p]; simpl in H; [discriminate|].
    destruct (Ascii.ascii_dec a b) as [->|_]; [|discriminate].
    destruct (IH p H) as [s ->]. exists s. reflexivity.
Qed.

Lemma startsWith_iff (p r : string) :
  startsWith p r = true <-> exists s, p = r ++ s.
Proof.
  split; [apply startsWith_inv|].
  intros [s ->]. apply startsWith_app.
Qed.

Lemma some_iff {A : Type} (f : A -> bool) (xs : list A) :
  some f xs = true <-> exists x, In x xs /\ f x = true.
Proof. unfold some. apply existsb_exists. Qed.

End JsFacts.

Module ProxyFacts.
Import Proxy.

Lemma authorized_with_token (t : JWT) (pathname : string) :
  authorized (Some t) pathname = true.
Proof. reflexivity. Qed.

Lemma authorized_without_token (pathname : string) :
  authorized None pathname = isPublicRoute pathname.
Proof. unfold authorized. destruct (isPublicRoute pathname); reflexivity. Qed.

Lemma getToken_failed (c : CredentialState) :
  c = Absent \/ c = PresentInvalid -> getToken c = None.
Proof. intros [->| ->]; reflexivity. Qed.

Example root_is_protected : isPublicRoute "/" = false.
Proof. reflexivity. Qed.

Example oauth_callback_is_public :
  isPublicRoute "/api/auth/callback/google" = true.
Proof. reflexivity. Qed.

Example root_redirects :
  proxy Absent "/" = RedirectTo "/login" [("callbackUrl", "/")].
Proof. reflexivity. Qed.

Example next_prefix_is_let_through :
  matcher "/_next-admin" = true /\ proxy Absent "/_next-admin" = Admit.
Proof. split; reflexivity. Qed.

Example static_asset_bypasses_proxy :
  matcher "/_next/static/chunk.js" = false.
Proof. reflexivity. Qed.

Example favicon_bypasses_proxy : matcher "/favicon.ico" = false.
Proof. reflexivity. Qed.

Example api_protected_is_matched : matcher "/api/protected/items" = true.
Proof. reflexivity. Qed.

(** C1. Off the public allow-list, a request with no credential or with an
    invalid one is not authorized by the callback, and the configured
    sign-in page is [/login]: next-auth answers such a request with a
    redirect to [/login] that carries the requested address as
    [callbackUrl], except on the paths it lets through before it consults
    the callback. *)
Theorem C1_protected_path_without_credential_denied
    (c : CredentialState) (req : NextRequest) :
  isPublicRoute (nextUrl_pathname req) = false ->
  c = Absent \/ c = PresentInvalid ->
  authorized (getToken c) (nextUrl_pathname req) = false
  /\ signIn = "/login"
  /\ handleMiddleware true c req
     = if never_requires_auth (nextUrl_pathname req) then Admit
       else RedirectTo "/login"
              [("callbackUrl", nextUrl_pathname req ++ nextUrl_search req)].
Proof.
  intros Hprot Hc. unfold handleMiddleware.
  rewrite (getToken_failed c Hc), authorized_without_token, Hprot.
  repeat split; reflexivity.
Qed.

Lemma C1_witness :
  authorized (getToken Absent) "/" = false
  /\ signIn = "/login"
  /\ handleMiddleware true Absent
       {| nextUrl_pathname := "/"; nextUrl_search := "?tab=open" |}
     = RedirectTo "/login" [("callbackUrl", "/?tab=open")].
Proof.
  apply (C1_protected_path_without_credential_denied Absent
           {| nextUrl_pathname := "/"; nextUrl_search := "?tab=open" |}).
  - reflexivity.
  - left; reflexivity.
Defined.

(** C2. A path that starts with one of the public routes [/login] and
    [/api/auth] is authorized whatever the credential state: valid, absent
    or invalid. *)
Theorem C2_public_path_admitted
    (c : CredentialState) (pathname : string) :
  isPublicRoute pathname = true ->
  authorized (getToken c) pathname = true /\ withAuth c pathname = Admit.
Proof.
  intros Hpub.
  assert (Hauth : authorized (getToken c) pathname = true).
  { destruct (getToken c) as [t|]; [reflexivity|].
    rewrite authorized_without_token. exact Hpub. }
  split; [exact Hauth|].
  unfold withAuth, handleMiddleware. simpl.
  rewrite Hauth. destruct (never_requires_auth pathname); reflexivity.
Qed.

Lemma C2_witness :
  authorized (getToken Absent) "/api/auth/callback/google" = true
  /\ withAuth Absent "/api/auth/callback/google" = Admit.
Proof.
  apply (C2_public_path_admitted Absent "/api/auth/callback/google").
  reflexivity.
Defined.

Lemma isPublicRoute_iff (pathname : string) :
  isPublicRoute pathname = true
  <-> exists s, pathname = "/login" ++ s \/ pathname = "/api/auth" ++ s.
Proof.
  unfold isPublicRoute. rewrite JsFacts.some_iff. split.
  - intros [r [Hin Hr]]. apply JsFacts.startsWith_inv in Hr as [s Hs].
    exists s. simpl in Hin. destruct Hin as [<-|[<-|[]]]; auto.
  - intros [s [->| ->]].
    + exists "/login". split; [simpl; auto | apply JsFacts.startsWith_app].
    + exists "/api/auth". split; [simpl; auto | apply JsFacts.startsWith_app].
Qed.

(** C3, as the claim states it, fails: [/login-admin] is not classified
    protected and is not denied without a credential. *)
Lemma C3_login_admin_not_protected :
  ~ (isPublicRoute "/login-admin" = false
     /\ authorized (getToken Absent) "/login-admin" = false).
Proof. intros [H _]. vm_compute in H. discriminate H. Qed.

(** C3, amended. Classification is by raw string prefix: a path is public
    exactly when its text begins with [/login] or with [/api/auth]. So
    [/login-admin], which exact-segment matching would leave protected, is
    classified public; without a credential the callback authorizes it,
    and the matcher does not even select it for the proxy. *)
Theorem C3_classification_is_by_string_prefix :
  (forall pathname,
      isPublicRoute pathname = true
      <-> exists s, pathname = "/login" ++ s \/ pathname = "/api/auth" ++ s)
  /\ SpecWords.isPublicRoute_by_segment "/login-admin" = false
  /\ isPublicRoute "/login-admin" = true
  /\ authorized (getToken Absent) "/login-admin" = true
  /\ matcher "/login-admin" = false
  /\ proxy Absent "/login-admin" = Admit.
Proof.
  split; [exact isPublicRoute_iff|].
  repeat split; reflexivity.
Qed.

Lemma lookahead_lit_of_prefix (r rest : string) :
  String.prefix r rest = true -> lookahead (lit r) rest = true.
Proof.
  revert rest. induction r as [|a r IH]; intros rest H; [reflexivity|].
  destruct rest as [|b rest]; simpl in H; [discriminate|].
  destruct (Ascii.ascii_dec a b) as [->|_]; [|discriminate].
  unfold lit. simpl. rewrite Ascii.eqb_refl. apply IH, H.
Qed.

Lemma catch_all_excludes_public (pathname : string) :
  matches_catch_all pathname = true -> isPublicRoute pathname = false.
Proof.
  unfold matches_catch_all.
  destruct pathname as [|a rest]; [discriminate|].
  destruct (Ascii.eqb_spec a "/"%char) as [->|Hne].
  - intros H. apply andb_true_iff in H as [Hex _].
    apply negb_true_iff in Hex.
    destruct (isPublicRoute (String "/" rest)) eqn:Hpub; [|reflexivity].
    unfold isPublicRoute, Js.some, Js.startsWith, publicRoutes in Hpub.
    simpl in Hpub. rewrite orb_false_r in Hpub.
    assert (Hin : Js.some (fun alt => lookahead alt rest) excluded = true);
      [|rewrite Hin in Hex; discriminate Hex].
    apply JsFacts.some_iff.
    apply orb_true_iff in Hpub as [Hp|Hp];
      apply lookahead_lit_of_prefix in Hp.
    + exists (lit "login"). split; [left; reflexivity | exact Hp].
    + exists (lit "api/auth"). split; [right; left; reflexivity | exact Hp].
  - intros H. exfalso.
    destruct a as [[] [] [] [] [] [] [] []]; try discriminate H.
    apply Hne. reflexivity.
Qed.

Lemma matcher_excludes_public (pathname : string) :
  matcher pathname = true -> isPublicRoute pathname = false.
Proof.
  unfold matcher. intros H.
  apply orb_true_iff in H as [H|H]; [apply orb_true_iff in H as [H|H]|].
  - apply String.eqb_eq in H. subst. reflexivity.
  - unfold matches_api_protected in H. apply orb_true_iff in H as [H|H].
    + apply String.eqb_eq in H. subst. reflexivity.
    + apply JsFacts.startsWith_inv in H as [s ->]. reflexivity.
  - apply catch_all_excludes_public, H.
Qed.

(** C9. The decision never throws. For every path and credential state
    the callback returns a boolean: [true] for a valid credential, and for
    an absent or invalid one the allow-list test on the path. Wherever the
    gate validates a credential (the matcher selects the path and next-auth
    does not let it through beforehand) and the validation fails, that
    boolean is [false] and the gate answers with the redirect to the
    sign-in page. *)
Theorem C9_failed_validation_resolves_to_deny
    (c : CredentialState) (req : NextRequest) :
  authorized (getToken c) (nextUrl_pathname req)
  = match c with
    | PresentValid _ => true
    | Absent | PresentInvalid => isPublicRoute (nextUrl_pathname req)
    end
  /\ (matcher (nextUrl_pathname req) = true ->
      never_requires_auth (nextUrl_pathname req) = false ->
      c = Absent \/ c = PresentInvalid ->
      authorized (getToken c) (nextUrl_pathname req) = false
      /\ middleware true c req
         = RedirectTo "/login"
             [("callbackUrl", nextUrl_pathname req ++ nextUrl_search req)]).
Proof.
  split.
  - destruct c; simpl; try reflexivity; apply authorized_without_token.
  - intros Hm Hearly Hc.
    assert (Hauth : authorized (getToken c) (nextUrl_pathname req) = false).
    { rewrite (getToken_failed c Hc), authorized_without_token.
      apply matcher_excludes_public, Hm. }
    split; [exact Hauth|].
    unfold middleware, handleMiddleware. rewrite Hm, Hearly, Hauth. reflexivity.
Qed.

Lemma C9_witness :
  authorized (getToken PresentInvalid) "/api/protected/items" = false
  /\ middleware true PresentInvalid
       {| nextUrl_pathname := "/api/protected/items"; nextUrl_search := "" |}
     = RedirectTo "/login" [("callbackUrl", "/api/protected/items")].
Proof.
  apply (proj2 (C9_failed_validation_resolves_to_deny PresentInvalid
                  {| nextUrl_pathname := "/api/protected/items";
                     nextUrl_search := "" |})).
  - reflexivity.
  - reflexivity.
  - right; reflexivity.
Defined.

End ProxyFacts.

Module InterceptorFacts.
Import Types Interceptors.

Lemma status_is_of_response (r : AxiosResponse) (code : Z) :
  status_is {| response := Some r |} code = Z.eqb (status r) code.
Proof. reflexivity. Qed.

Lemma status_is_unique (error : AxiosError) (a b : Z) :
  status_is error a = true -> a <> b -> status_is error b = false.
Proof.
  unfold status_is. destruct (response error) as [r|]; [|discriminate].
  intros Ha Hne. apply Z.eqb_eq in Ha. apply Z.eqb_neq. congruence.
Qed.

Lemma authToken_purged (rt : Runtime) :
  authToken (purge_and_redirect rt) = None.
Proof.
  unfold purge_and_redirect, authToken.
  destruct (window rt) as [w|] eqn:Hw; simpl.
  - apply lookup_delete_eq.
  - rewrite Hw. reflexivity.
Qed.

Lemma window_purged (rt : Runtime) :
  window (purge_and_redirect rt)
  = (fun w => {| localStorage := delete "authToken" (localStorage w);
                 location_href := "/login" |}) <$> window rt.
Proof.
  unfold purge_and_redirect.
  destruct (window rt) as [w|] eqn:Hw; simpl; [reflexivity | exact Hw].
Qed.

(** The error side of the response interceptor on a 401. *)
Lemma onResponseError_401 (rt : Runtime) (error : AxiosError) :
  status_is error 401 = true ->
  onResponseError rt error = (purge_and_redirect rt, Rejected error).
Proof.
  intros H. unfold onResponseError.
  rewrite H, (status_is_unique error 401 403 H), (status_is_unique error 401 429 H);
    [reflexivity | lia | lia].
Qed.

Lemma onResponseError_403 (rt : Runtime) (error : AxiosError) :
  status_is error 403 = true ->
  onResponseError rt error
  = (console_error "Access forbidden" rt, Rejected error).
Proof.
  intros H. unfold onResponseError.
  rewrite H, (status_is_unique error 403 401 H), (status_is_unique error 403 429 H);
    [reflexivity | lia | lia].
Qed.

Lemma onResponseError_429 (rt : Runtime) (error : AxiosError) :
  status_is error 429 = true ->
  onResponseError rt error
  = (console_error "Rate limit exceeded" rt, Rejected error).
Proof.
  intros H. unfold onResponseError.
  rewrite H, (status_is_unique error 429 401 H), (status_is_unique error 429 403 H);
    [reflexivity | lia | lia].
Qed.

(** A status that [settle] refuses sends the call to the error side. *)
Lemma request_error_status (adapter : Adapter) (rt : Runtime)
    (config : AxiosRequestConfig) (r : AxiosResponse) :
  adapter (onRequest rt config) = Some r ->
  settles (status r) = false ->
  request adapter rt config
  = onResponseError (send (onRequest rt config) rt) {| response := Some r |}.
Proof. intros Ha Hv. unfold request. rewrite Ha, Hv. reflexivity. Qed.

Lemma call_rejected (adapter : Adapter) (rt rt' : Runtime)
    (c : TodoApi.Call) (e : AxiosError) :
  request adapter rt (TodoApi.config_of c) = (rt', Rejected e) ->
  TodoApi.call adapter rt c = (rt', Rejected e).
Proof. intros H. unfold TodoApi.call. rewrite H. reflexivity. Qed.

End InterceptorFacts.

Module FacadeFacts.
Import Types Interceptors InterceptorFacts TodoApi Fixtures.

(** A call answered with an error status [Hs] by the transport [Ha] ends on
    the error side of the response interceptor, where [branch] applies. *)
Ltac error_side Ha Hs branch :=
  apply call_rejected;
  rewrite (request_error_status _ _ _ _ Ha) by (rewrite Hs; reflexivity);
  apply branch; rewrite status_is_of_response, Hs; reflexivity.

(** C4. When a facade call is answered with status 401, the response
    interceptor removes [authToken] from local storage, points the browser
    at [/login], and the call still rejects with the error. Outside a
    browser there is no local storage and no location to change. *)
Theorem C4_unauthorized_purges_credential_and_redirects
    (adapter : Adapter) (rt : Runtime) (c : Call) (r : AxiosResponse) :
  adapter (onRequest rt (config_of c)) = Some r ->
  status r = 401%Z ->
  authToken (fst (call adapter rt c)) = None
  /\ window (fst (call adapter rt c))
     = (fun w => {| localStorage := delete "authToken" (localStorage w);
                    location_href := "/login" |}) <$> window rt
  /\ snd (call adapter rt c) = Rejected {| response := Some r |}.
Proof.
  intros Ha Hs.
  assert (Hcall : call adapter rt c
                  = (purge_and_redirect (send (onRequest rt (config_of c)) rt),
                     Rejected {| response := Some r |})).
  { error_side Ha Hs onResponseError_401. }
  rewrite Hcall. simpl. split; [apply authToken_purged|].
  split; [|reflexivity]. rewrite window_purged. reflexivity.
Qed.

Lemma C4_witness :
  authToken (fst (call (answers 401) browser_with_token getAllTodos)) = None
  /\ window (fst (call (answers 401) browser_with_token getAllTodos))
     = Some {| localStorage := delete "authToken" {[ "authToken" := "abc" ]};
               location_href := "/login" |}
  /\ snd (call (answers 401) browser_with_token getAllTodos)
     = Rejected {| response := Some {| status := 401; payload := NoContent |} |}.
Proof.
  apply (C4_unauthorized_purges_credential_and_redirects
           (answers 401) browser_with_token getAllTodos
           {| status := 401; payload := NoContent |});
    reflexivity.
Defined.

(** C5. When a facade call is answered with status 403, the call rejects
    with that error and the interceptor only logs: the browser state, and
    with it the stored credential and the location, is what it was. *)
Theorem C5_forbidden_keeps_credential
    (adapter : Adapter) (rt : Runtime) (c : Call) (r : AxiosResponse) :
  adapter (onRequest rt (config_of c)) = Some r ->
  status r = 403%Z ->
  snd (call adapter rt c) = Rejected {| response := Some r |}
  /\ window (fst (call adapter rt c)) = window rt
  /\ authToken (fst (call adapter rt c)) = authToken rt
  /\ console (fst (call adapter rt c))
     = (console rt ++ ["Access forbidden"])%list.
Proof.
  intros Ha Hs.
  assert (Hcall : call adapter rt c
                  = (console_error "Access forbidden"
                       (send (onRequest rt (config_of c)) rt),
                     Rejected {| response := Some r |})).
  { error_side Ha Hs onResponseError_403. }
  rewrite Hcall. simpl. repeat split; reflexivity.
Qed.

Lemma C5_witness :
  snd (call (answers 403) browser_with_token (deleteTodo 1))
  = Rejected {| response := Some {| status := 403; payload := NoContent |} |}
  /\ window (fst (call (answers 403) browser_with_token (deleteTodo 1)))
     = window browser_with_token
  /\ authToken (fst (call (answers 403) browser_with_token (deleteTodo 1)))
     = authToken browser_with_token
  /\ console (fst (call (answers 403) browser_with_token (deleteTodo 1)))
     = (console browser_with_token ++ ["Access forbidden"])%list.
Proof.
  apply (C5_forbidden_keeps_credential
           (answers 403) browser_with_token (deleteTodo 1)
           {| status := 403; payload := NoContent |});
    reflexivity.
Defined.

Lemma onRequest_fields (rt : Runtime) (config : AxiosRequestConfig) :
  method (onRequest rt config) = method config
  /\ url (onRequest rt config) = url config
  /\ params (onRequest rt config) = params config
  /\ data (onRequest rt config) = data config.
Proof.
  unfold onRequest.
  destruct (authToken rt) as [t|]; simpl; [destruct (String.eqb t ""); simpl|];
    repeat split; reflexivity.
Qed.

(** C6. The request interceptor adds [Authorization: Bearer <token>] when
    local storage holds a token the test [if (token)] accepts, and adds no
    authorization header when it holds none; either way the only other
    change to the request is the fixed [Content-Type] header. *)
Theorem C6_request_interceptor_attaches_bearer
    (rt : Runtime) (config : AxiosRequestConfig) :
  (forall t, authToken rt = Some t -> truthy (Some t) = true ->
     headers (onRequest rt config)
     = <[ "Content-Type" := "application/json" ]>
         (<[ "Authorization" := "Bearer " ++ t ]> (headers config)))
  /\ (truthy (authToken rt) = false ->
      headers (onRequest rt config)
      = <[ "Content-Type" := "application/json" ]> (headers config)
      /\ headers (onRequest rt config) !! "Authorization"
         = headers config !! "Authorization")
  /\ method (onRequest rt config) = method config
  /\ url (onRequest rt config) = url config
  /\ params (onRequest rt config) = params config
  /\ data (onRequest rt config) = data config.
Proof.
  split; [|split; [|apply onRequest_fields]].
  - intros t Ht Htruthy. unfold onRequest. rewrite Ht, Htruthy. reflexivity.
  - intros Hfalsy.
    assert (H : headers (onRequest rt config)
                = <[ "Content-Type" := "application/json" ]> (headers config)).
    { unfold onRequest. destruct (authToken rt) as [t|]; [|reflexivity].
      rewrite Hfalsy. reflexivity. }
    split; [exact H|]. rewrite H. apply lookup_insert_ne. discriminate.
Qed.

Lemma C6_witness :
  headers (onRequest browser_with_token (config_of getAllTodos))
  = <[ "Content-Type" := "application/json" ]>
      (<[ "Authorization" := "Bearer abc" ]> default_headers)
  /\ headers (onRequest server_side (config_of getAllTodos)) !! "Authorization"
     = None.
Proof.
  split.
  - apply (proj1 (C6_request_interceptor_attaches_bearer
                    browser_with_token (config_of getAllTodos)) "abc");
      reflexivity.
  - destruct (proj1 (proj2 (C6_request_interceptor_attaches_bearer
                              server_side (config_of getAllTodos)))
                eq_refl) as [_ H].
    rewrite H. reflexivity.
Defined.

Lemma retries_after_send (rt rt' : Runtime) (config : AxiosRequestConfig) :
  wire rt' = (wire rt ++ [config])%list -> retries rt rt' = 0%nat.
Proof.
  intros H. unfold retries. rewrite H, length_app. simpl. lia.
Qed.

(** C7. When a facade call is answered with status 429, the request went
    to the transport once and is not sent again: the call makes no retry
    of its own, which is within the configured [RETRY_ATTEMPTS] of one,
    and it rejects with the rate-limit error after logging it. *)
Theorem C7_rate_limited_at_most_one_retry
    (adapter : Adapter) (rt : Runtime) (c : Call) (r : AxiosResponse) :
  adapter (onRequest rt (config_of c)) = Some r ->
  status r = 429%Z ->
  wire (fst (call adapter rt c))
  = (wire rt ++ [onRequest rt (config_of c)])%list
  /\ (retries rt (fst (call adapter rt c)) <= ApiConfig.RETRY_ATTEMPTS)%nat
  /\ snd (call adapter rt c) = Rejected {| response := Some r |}
  /\ console (fst (call adapter rt c))
     = (console rt ++ ["Rate limit exceeded"])%list.
Proof.
  intros Ha Hs.
  assert (Hcall : call adapter rt c
                  = (console_error "Rate limit exceeded"
                       (send (onRequest rt (config_of c)) rt),
                     Rejected {| response := Some r |})).
  { error_side Ha Hs onResponseError_429. }
  rewrite Hcall. simpl. split; [reflexivity|]. split; [|split; reflexivity].
  rewrite (retries_after_send rt
             (console_error "Rate limit exceeded"
                (send (onRequest rt (config_of c)) rt))
             (onRequest rt (config_of c))) by reflexivity.
  unfold ApiConfig.RETRY_ATTEMPTS. lia.
Qed.

Lemma C7_witness :
  wire (fst (call (answers 429) browser_with_token (getTodoById 5)))
  = (wire browser_with_token
       ++ [onRequest browser_with_token (config_of (getTodoById 5))])%list
  /\ (retries browser_with_token
        (fst (call (answers 429) browser_with_token (getTodoById 5)))
      <= ApiConfig.RETRY_ATTEMPTS)%nat
  /\ snd (call (answers 429) browser_with_token (getTodoById 5))
     = Rejected {| response := Some {| status := 429; payload := NoContent |} |}
  /\ console (fst (call (answers 429) browser_with_token (getTodoById 5)))
     = (console browser_with_token ++ ["Rate limit exceeded"])%list.
Proof.
  apply (C7_rate_limited_at_most_one_retry
           (answers 429) browser_with_token (getTodoById 5)
           {| status := 429; payload := NoContent |});
    reflexivity.
Defined.

End FacadeFacts.

Module QueryClientFacts.
Import Types QueryClient UseTodos.

Lemma mark_family_lookup (queryKey k : QueryKey) (c : QueryCache) :
  mark_family queryKey c !! k
  = (fun q => if partialMatchKey k queryKey then invalidate q else q) <$> c !! k.
Proof.
  unfold mark_family. rewrite map_lookup_imap.
  destruct (c !! k); reflexivity.
Qed.

Lemma mark_family_hit (queryKey k : QueryKey) (c : QueryCache) (q : QueryState) :
  partialMatchKey k queryKey = true ->
  c !! k = Some q -> mark_family queryKey c !! k = Some (invalidate q).
Proof. intros Hm Hk. rewrite mark_family_lookup, Hk. simpl. rewrite Hm. reflexivity. Qed.

Lemma mark_family_miss (queryKey k : QueryKey) (c : QueryCache) :
  partialMatchKey k queryKey = false ->
  mark_family queryKey c !! k = c !! k.
Proof.
  intros Hm. rewrite mark_family_lookup, Hm. destruct (c !! k); reflexivity.
Qed.

(** Marking a family never changes stored data nor the set of queries. *)
Lemma mark_family_data (queryKey k : QueryKey) (c : QueryCache) :
  data <$> mark_family queryKey c !! k = data <$> c !! k.
Proof.
  rewrite mark_family_lookup.
  destruct (c !! k) as [q|]; simpl; [|reflexivity].
  destruct (partialMatchKey k queryKey); reflexivity.
Qed.

(** The aggregate key lies outside every owner family. *)
Lemma todos_key_not_in_user_family (u : Z) :
  partialMatchKey TODOS_QUERY_KEY (USER_TODOS_QUERY_KEY u) = false.
Proof. reflexivity. Qed.

Lemma createTodo_onSuccess_run (newTodo : Todo) (c : QueryCache) :
  createTodo_onSuccess newTodo c
  = match getQueryData c TODOS_QUERY_KEY with
    | Some (DTodos old) =>
        Normal (tt, mark_family (USER_TODOS_QUERY_KEY (userId newTodo))
                      (<[TODOS_QUERY_KEY := setData (DTodos (newTodo :: old))]> c))
    | Some (DTodo _) => Throw "TypeError: oldData is not iterable"
    | None =>
        Normal (tt, mark_family (USER_TODOS_QUERY_KEY (userId newTodo))
                      (<[TODOS_QUERY_KEY := setData (DTodos [newTodo])]> c))
    end.
Proof.
  unfold createTodo_onSuccess, bind, setQueryData.
  destruct (getQueryData c TODOS_QUERY_KEY) as [[old|t]|]; reflexivity.
Qed.

Lemma deleteTodo_onSuccess_run (id' : Z) (c : QueryCache) :
  deleteTodo_onSuccess id' c
  = match getQueryData c TODOS_QUERY_KEY with
    | None => Normal (tt, <[TODOS_QUERY_KEY := setData (DTodos [])]> c)
    | Some (DTodos old) =>
        Normal (tt,
          <[TODOS_QUERY_KEY :=
              setData (DTodos (List.filter
                                 (fun todo => negb (Z.eqb (id todo) id')) old))]>
            (match List.find (fun todo => Z.eqb (id todo) id') old with
             | Some t => mark_family (USER_TODOS_QUERY_KEY (userId t)) c
             | None => c
             end))
    | Some (DTodo _) => Throw "TypeError: oldData.find is not a function"
    end.
Proof.
  unfold deleteTodo_onSuccess, setQueryData.
  destruct (getQueryData c TODOS_QUERY_KEY) as [[old|t]|]; try reflexivity.
  unfold bind.
  destruct (List.find (fun todo => Z.eqb (id todo) id') old); reflexivity.
Qed.

End QueryClientFacts.

Module UseTodosFacts.
Import Types QueryClient UseTodos QueryClientFacts Fixtures.

Lemma insert_todos_data (c : QueryCache) (q : QueryState) (k : QueryKey) :
  k <> TODOS_QUERY_KEY ->
  data <$> <[TODOS_QUERY_KEY := q]> c !! k = data <$> c !! k.
Proof. intros Hk. rewrite lookup_insert_ne by congruence. reflexivity. Qed.

Lemma warm_cache_typed : todos_entry_typed warm_cache.
Proof. intros t H. vm_compute in H. discriminate H. Qed.

Lemma cold_cache_typed : todos_entry_typed cold_cache.
Proof. intros t H. vm_compute in H. discriminate H. Qed.

(** C8. After a successful create, the handler completes and: an aggregate
    list that was present now starts with the new item; every query of the
    new item's owner family is marked invalidated; under every key other
    than the aggregate one the stored data and the set of queries are what
    they were, and outside the owner family nothing changed at all. *)
Theorem C8_create_prepends_and_invalidates_owner
    (c : QueryCache) (newTodo : Todo) :
  todos_entry_typed c ->
  exists c',
    createTodo_onSuccess newTodo c = Normal (tt, c')
    /\ (forall old,
          getQueryData c TODOS_QUERY_KEY = Some (DTodos old) ->
          getQueryData c' TODOS_QUERY_KEY = Some (DTodos (newTodo :: old)))
    /\ (forall k q,
          partialMatchKey k (USER_TODOS_QUERY_KEY (userId newTodo)) = true ->
          c !! k = Some q -> c' !! k = Some (invalidate q))
    /\ (forall k, k <> TODOS_QUERY_KEY -> data <$> c' !! k = data <$> c !! k)
    /\ (forall k,
          k <> TODOS_QUERY_KEY ->
          partialMatchKey k (USER_TODOS_QUERY_KEY (userId newTodo)) = false ->
          c' !! k = c !! k).
Proof.
  intros Htyped. rewrite createTodo_onSuccess_run.
  set (u := USER_TODOS_QUERY_KEY (userId newTodo)).
  assert (Hgen : forall l,
    (forall old, getQueryData c TODOS_QUERY_KEY = Some (DTodos old) ->
                 l = newTodo :: old) ->
    let c' := mark_family u (<[TODOS_QUERY_KEY := setData (DTodos l)]> c) in
    (forall old,
        getQueryData c TODOS_QUERY_KEY = Some (DTodos old) ->
        getQueryData c' TODOS_QUERY_KEY = Some (DTodos (newTodo :: old)))
    /\ (forall k q, partialMatchKey k u = true ->
                    c !! k = Some q -> c' !! k = Some (invalidate q))
    /\ (forall k, k <> TODOS_QUERY_KEY -> data <$> c' !! k = data <$> c !! k)
    /\ (forall k, k <> TODOS_QUERY_KEY -> partialMatchKey k u = false ->
                  c' !! k = c !! k)).
  { intros l Hl c'. subst c'. repeat split.
    - intros old Hold. unfold getQueryData.
      rewrite mark_family_miss by apply todos_key_not_in_user_family.
      rewrite lookup_insert_eq, (Hl old Hold). reflexivity.
    - intros k q Hm Hk. apply mark_family_hit; [exact Hm|].
      rewrite lookup_insert_ne; [exact Hk|].
      intros <-. unfold u in Hm.
      rewrite todos_key_not_in_user_family in Hm. discriminate.
    - intros k Hk. rewrite mark_family_data. apply insert_todos_data, Hk.
    - intros k Hk Hm. rewrite mark_family_miss by exact Hm.
      apply lookup_insert_ne. congruence. }
  destruct (getQueryData c TODOS_QUERY_KEY) as [[old|t]|] eqn:Hold.
  - eexists. split; [reflexivity|]. apply Hgen. intros old' [= <-]. reflexivity.
  - destruct (Htyped t Hold).
  - eexists. split; [reflexivity|]. apply Hgen. intros old' [=].
Qed.

Lemma C8_witness :
  todos_entry_typed warm_cache
  /\ exists c',
       createTodo_onSuccess walk_dog warm_cache = Normal (tt, c')
       /\ getQueryData c' TODOS_QUERY_KEY = Some (DTodos [walk_dog; buy_milk])
       /\ c' !! USER_TODOS_QUERY_KEY 9
          = Some {| data := Some (DTodos []); isInvalidated := true |}
       /\ c' !! USER_TODOS_QUERY_KEY 7 = warm_cache !! USER_TODOS_QUERY_KEY 7.
Proof.
  split; [exact warm_cache_typed|].
  destruct (C8_create_prepends_and_invalidates_owner
              warm_cache walk_dog warm_cache_typed)
    as (c' & Hrun & Hlist & Hfam & _ & Hrest).
  exists c'. split; [exact Hrun|]. split; [|split].
  - apply Hlist. reflexivity.
  - apply (Hfam (USER_TODOS_QUERY_KEY 9) (fresh (DTodos []))); reflexivity.
  - apply Hrest; [discriminate | reflexivity].
Defined.

(** C10. After a successful delete, the handler completes and: when the
    cache held no aggregate list, the aggregate entry now holds the empty
    list, not invalidated, and every other query is exactly what it was, so
    nothing is invalidated; any query other than the aggregate one that
    changed had its invalidation mark set, its data kept, and then the
    deleted item was found in an existing aggregate list and the query
    belongs to the family of that item's owner; and when the item is found,
    every query of that family has its mark set. *)
Theorem C10_delete_invalidates_only_when_found
    (c : QueryCache) (id' : Z) :
  todos_entry_typed c ->
  exists c',
    deleteTodo_onSuccess id' c = Normal (tt, c')
    /\ (getQueryData c TODOS_QUERY_KEY = None ->
        getQueryData c' TODOS_QUERY_KEY = Some (DTodos [])
        /\ c' !! TODOS_QUERY_KEY
           = Some {| data := Some (DTodos []); isInvalidated := false |}
        /\ (forall k, k <> TODOS_QUERY_KEY -> c' !! k = c !! k))
    /\ (forall k,
          k <> TODOS_QUERY_KEY -> c' !! k <> c !! k ->
          exists old t q,
            getQueryData c TODOS_QUERY_KEY = Some (DTodos old)
            /\ List.find (fun todo => Z.eqb (id todo) id') old = Some t
            /\ partialMatchKey k (USER_TODOS_QUERY_KEY (userId t)) = true
            /\ c !! k = Some q
            /\ isInvalidated q = false
            /\ c' !! k = Some {| data := data q; isInvalidated := true |})
    /\ (forall old t k q,
          getQueryData c TODOS_QUERY_KEY = Some (DTodos old) ->
          List.find (fun todo => Z.eqb (id todo) id') old = Some t ->
          partialMatchKey k (USER_TODOS_QUERY_KEY (userId t)) = true ->
          c !! k = Some q ->
          c' !! k = Some {| data := data q; isInvalidated := true |}).
Proof.
  intros Htyped. rewrite deleteTodo_onSuccess_run.
  destruct (getQueryData c TODOS_QUERY_KEY) as [[old|t0]|] eqn:Hold.
  - eexists. split; [reflexivity|]. split; [discriminate|].
    destruct (List.find (fun todo => Z.eqb (id todo) id') old) as [t|] eqn:Hfind.
    + split.
      * intros k Hk Hchg. rewrite lookup_insert_ne in Hchg by congruence.
        rewrite mark_family_lookup in Hchg.
        destruct (c !! k) as [q|] eqn:Hq; [|destruct Hchg; reflexivity].
        destruct (partialMatchKey k (USER_TODOS_QUERY_KEY (userId t))) eqn:Hm;
          [|destruct Hchg; reflexivity].
        exists old, t, q. repeat split; try reflexivity; try assumption.
        -- destruct q as [d [|]]; [|reflexivity].
           destruct Hchg. reflexivity.
        -- rewrite lookup_insert_ne by congruence.
           apply mark_family_hit; assumption.
      * intros old' t' k q [= <-] Hf Hm Hq.
        rewrite Hfind in Hf. injection Hf as <-.
        rewrite lookup_insert_ne.
        -- apply mark_family_hit; assumption.
        -- intros <-. rewrite todos_key_not_in_user_family in Hm. discriminate.
    + split.
      * intros k Hk Hchg. rewrite lookup_insert_ne in Hchg by congruence.
        destruct Hchg; reflexivity.
      * intros old' t' k q [= <-] Hf. rewrite Hfind in Hf. discriminate Hf.
  - destruct (Htyped t0 Hold).
  - eexists. split; [reflexivity|]. split; [|split].
    + intros _. split; [|split].
      * unfold getQueryData. rewrite lookup_insert_eq. reflexivity.
      * apply lookup_insert_eq.
      * intros k Hk. apply lookup_insert_ne. congruence.
    + intros k Hk Hchg. rewrite lookup_insert_ne in Hchg by congruence.
      destruct Hchg; reflexivity.
    + intros old t k q [=].
Qed.

Lemma C10_witness :
  todos_entry_typed cold_cache
  /\ exists c',
       deleteTodo_onSuccess 1 cold_cache = Normal (tt, c')
       /\ getQueryData c' TODOS_QUERY_KEY = Some (DTodos [])
       /\ c' !! TODOS_QUERY_KEY
          = Some {| data := Some (DTodos []); isInvalidated := false |}
       /\ c' !! USER_TODOS_QUERY_KEY 7
          = Some {| data := Some (DTodos [buy_milk]); isInvalidated := false |}.
Proof.
  split; [exact cold_cache_typed|].
  destruct (C10_delete_invalidates_only_when_found cold_cache 1 cold_cache_typed)
    as (c' & Hrun & Hcold & _).
  destruct (Hcold eq_refl) as (Hdata & Hentry & Hrest).
  exists c'. split; [exact Hrun|]. split; [exact Hdata|]. split; [exact Hentry|].
  rewrite Hrest by discriminate. reflexivity.
Defined.

(** With the aggregate list present and the item in it, the owner's family
    is invalidated and the item leaves the list. *)
Example delete_found_in_warm_cache :
  exists c',
    deleteTodo_onSuccess 1 warm_cache = Normal (tt, c')
    /\ c' !! TODOS_QUERY_KEY = Some (setData (DTodos []))
    /\ c' !! USER_TODOS_QUERY_KEY 7
       = Some {| data := Some (DTodos [buy_milk]); isInvalidated := true |}
    /\ c' !! USER_TODOS_QUERY_KEY 9 = Some (fresh (DTodos [])).
Proof.
  eexists. split; [rewrite deleteTodo_onSuccess_run; reflexivity|].
  repeat split; reflexivity.
Qed.

End UseTodosFacts.

(** * Further properties *)

Module TodosSliceFacts.
Import Types TodosSlice Fixtures MoreFixtures.

Lemma findIndex_None {A : Type} (p : A -> bool) (xs : list A) :
  (forall x, In x xs -> p x = false) -> findIndex p xs = None.
Proof.
  induction xs as [|x xs IH]; intros H; simpl; [reflexivity|].
  rewrite (H x) by (left; reflexivity).
  rewrite IH; [reflexivity|]. intros y Hy. apply H. right. exact Hy.
Qed.

Lemma findIndex_first {A : Type} (p : A -> bool) (pre post : list A) (x : A) :
  (forall y, In y pre -> p y = false) -> p x = true ->
  findIndex p (pre ++ x :: post)%list = Some (List.length pre).
Proof.
  induction pre as [|y pre IH]; intros Hpre Hx; simpl.
  - rewrite Hx. reflexivity.
  - rewrite (Hpre y) by (left; reflexivity).
    rewrite IH; [reflexivity| |exact Hx].
    intros z Hz. apply Hpre. right. exact Hz.
Qed.

Lemma findIndex_Some {A : Type} (p : A -> bool) (xs : list A) (i : nat) :
  findIndex p xs = Some i ->
  exists pre x post,
    xs = (pre ++ x :: post)%list /\ List.length pre = i /\ p x = true
    /\ (forall y, In y pre -> p y = false).
Proof.
  revert i. induction xs as [|x xs IH]; intros i H; simpl in H; [discriminate|].
  destruct (p x) eqn:Hx.
  - injection H as <-. exists [], x, xs. repeat split; try assumption.
    intros y [].
  - destruct (findIndex p xs) as [j|] eqn:Hj; [|discriminate].
    injection H as <-.
    destruct (IH j eq_refl) as (pre & z & post & -> & Hlen & Hz & Hpre).
    exists (x :: pre), z, post. repeat split; simpl; try congruence.
    intros y [<-|Hy]; [exact Hx | apply Hpre, Hy].
Qed.

Lemma insert_after_prefix {A : Type} (pre post : list A) (x t : A) :
  <[List.length pre := t]> (pre ++ x :: post)%list = (pre ++ t :: post)%list.
Proof. induction pre as [|y pre IH]; simpl; [reflexivity | rewrite IH; reflexivity]. Qed.

(** The array after [deleteTodo] holds exactly the items whose id differs
    from the payload; the flags are untouched. *)
Theorem deleteTodo_removes_exactly (s : TodosState) (i : Z) (t : Todo) :
  (In t (items (deleteTodo s i)) <-> In t (items s) /\ id t <> i)
  /\ loading (deleteTodo s i) = loading s
  /\ error (deleteTodo s i) = error s.
Proof.
  split; [|split; reflexivity]. simpl. rewrite filter_In.
  rewrite negb_true_iff, Z.eqb_neq. reflexivity.
Qed.

Lemma filter_idem {A : Type} (p : A -> bool) (xs : list A) :
  List.filter p (List.filter p xs) = List.filter p xs.
Proof.
  induction xs as [|x xs IH]; simpl; [reflexivity|].
  destruct (p x) eqn:Hx; simpl; [rewrite Hx, IH; reflexivity | exact IH].
Qed.

Lemma filter_all {A : Type} (p : A -> bool) (xs : list A) :
  (forall x, In x xs -> p x = true) -> List.filter p xs = xs.
Proof.
  induction xs as [|x xs IH]; intros H; simpl; [reflexivity|].
  rewrite (H x) by (left; reflexivity). f_equal.
  apply IH. intros y Hy. apply H. right. exact Hy.
Qed.

(** Dispatching [deleteTodo] twice with the same id equals dispatching it
    once. *)
Theorem deleteTodo_idempotent (s : TodosState) (i : Z) :
  deleteTodo (deleteTodo s i) i = deleteTodo s i.
Proof. unfold deleteTodo. simpl. rewrite filter_idem. reflexivity. Qed.

(** [deleteTodo] with an id no item carries returns the state it was given. *)
Theorem deleteTodo_absent_id (s : TodosState) (i : Z) :
  (forall t, In t (items s) -> id t <> i) -> deleteTodo s i = s.
Proof.
  intros H. unfold deleteTodo. rewrite filter_all; [destruct s; reflexivity|].
  intros t Ht. apply negb_true_iff, Z.eqb_neq, H, Ht.
Qed.

Lemma deleteTodo_absent_id_witness :
  deleteTodo two_copies 5 = two_copies.
Proof.
  apply (deleteTodo_absent_id two_copies 5).
  intros t [<-|[<-|[<-|[]]]]; discriminate.
Defined.

(** [updateTodo] keeps the number of items and the sequence of their ids. *)
Theorem updateTodo_keeps_ids (s : TodosState) (t : Todo) :
  List.map id (items (updateTodo s t)) = List.map id (items s)
  /\ List.length (items (updateTodo s t)) = List.length (items s).
Proof.
  unfold updateTodo.
  destruct (findIndex (fun todo => Z.eqb (id todo) (id t)) (items s)) as [i|] eqn:Hi;
    [|split; reflexivity].
  apply findIndex_Some in Hi as (pre & x & post & Hs & <- & Hx & _).
  simpl. rewrite Hs, insert_after_prefix.
  apply Z.eqb_eq in Hx.
  rewrite !List.map_app, !length_app. simpl. rewrite Hx. split; reflexivity.
Qed.

(** [updateTodo] replaces the first item that carries the payload's id and
    nothing else: later items with the same id stay as they are. *)
Theorem updateTodo_replaces_first_match
    (s : TodosState) (t x : Todo) (pre post : list Todo) :
  items s = (pre ++ x :: post)%list ->
  id x = id t ->
  (forall y, In y pre -> id y <> id t) ->
  updateTodo s t
  = {| items := (pre ++ t :: post)%list; loading := loading s; error := error s |}.
Proof.
  intros Hs Hx Hpre. unfold updateTodo. rewrite Hs.
  rewrite (findIndex_first _ pre post x).
  - rewrite insert_after_prefix. reflexivity.
  - intros y Hy. apply Z.eqb_neq, Hpre, Hy.
  - apply Z.eqb_eq, Hx.
Qed.

Lemma updateTodo_replaces_first_match_witness :
  updateTodo two_copies buy_milk_done
  = {| items := [walk_dog; buy_milk_done; buy_milk_again];
       loading := false; error := Some "stale" |}.
Proof.
  apply (updateTodo_replaces_first_match
           two_copies buy_milk_done buy_milk [walk_dog] [buy_milk_again]).
  - reflexivity.
  - reflexivity.
  - intros y [<-|[]]. discriminate.
Defined.

(** [updateTodo] with an id no item carries returns the state it was given:
    it never inserts. *)
Theorem updateTodo_absent_id (s : TodosState) (t : Todo) :
  (forall y, In y (items s) -> id y <> id t) -> updateTodo s t = s.
Proof.
  intros H. unfold updateTodo. rewrite findIndex_None; [reflexivity|].
  intros y Hy. apply Z.eqb_neq, H, Hy.
Qed.

Lemma updateTodo_absent_id_witness :
  updateTodo initialState buy_milk = initialState.
Proof.
  apply (updateTodo_absent_id initialState buy_milk). intros y [].
Defined.

(** [addTodo] followed by [deleteTodo] of the added item's id gives back the
    state, provided no earlier item carries that id. *)
Theorem addTodo_then_deleteTodo (s : TodosState) (t : Todo) :
  (forall y, In y (items s) -> id y <> id t) ->
  deleteTodo (addTodo s t) (id t) = s.
Proof.
  intros H. unfold deleteTodo, addTodo. simpl.
  rewrite List.filter_app. simpl. rewrite Z.eqb_refl. simpl.
  rewrite app_nil_r, filter_all; [destruct s; reflexivity|].
  intros y Hy. apply negb_true_iff, Z.eqb_neq, H, Hy.
Qed.

Lemma addTodo_then_deleteTodo_witness :
  deleteTodo (addTodo initialState walk_dog) 2 = initialState.
Proof.
  apply (addTodo_then_deleteTodo initialState walk_dog). intros y [].
Defined.

(** Without that proviso the pair is not the identity: deleting the id of
    the added item also drops every earlier item that shares it. *)
Theorem addTodo_then_deleteTodo_drops_duplicates (s : TodosState) (t : Todo) :
  items (deleteTodo (addTodo s t) (id t))
  = List.filter (fun todo => negb (Z.eqb (id todo) (id t))) (items s).
Proof.
  unfold deleteTodo, addTodo. simpl.
  rewrite List.filter_app. simpl. rewrite Z.eqb_refl. simpl.
  apply app_nil_r.
Qed.

(** Of all actions only [setLoading] can change the loading flag. *)
Theorem only_setLoading_changes_loading (s : TodosState) (a : Action) :
  loading (reducer s a) <> loading s -> exists b, a = SetLoading b.
Proof.
  destruct a as [p|p|p|p|b|p]; simpl; intros H;
    try (destruct H; reflexivity); [|exists b; reflexivity].
  unfold updateTodo in H.
  destruct (findIndex _ _); destruct H; reflexivity.
Qed.

Lemma only_setLoading_changes_loading_witness :
  exists b, SetLoading true = SetLoading b.
Proof.
  apply (only_setLoading_changes_loading initialState (SetLoading true)).
  discriminate.
Defined.

(** Of all actions only [setTodos], which clears it, and [setError] can
    change the error field. *)
Theorem only_setTodos_and_setError_change_error (s : TodosState) (a : Action) :
  error (reducer s a) <> error s ->
  (exists p, a = SetTodos p /\ error (reducer s a) = None)
  \/ (exists e, a = SetError e).
Proof.
  destruct a as [p|p|p|p|b|e]; simpl; intros H;
    try (destruct H; reflexivity).
  - left. exists p. split; reflexivity.
  - unfold updateTodo in H. destruct (findIndex _ _); destruct H; reflexivity.
  - right. exists e. reflexivity.
Qed.

Lemma only_setTodos_and_setError_change_error_witness :
  (exists p, SetTodos [] = SetTodos p /\ error (reducer two_copies (SetTodos [])) = None)
  \/ (exists e, SetTodos [] = SetError e).
Proof.
  apply (only_setTodos_and_setError_change_error two_copies (SetTodos [])).
  discriminate.
Defined.

End TodosSliceFacts.

Module CacheFacts.
Import Types QueryClient UseTodos QueryClientFacts Fixtures MoreFixtures.

Lemma single_key_not_todos (i : Z) : SINGLE_TODO_QUERY_KEY i <> TODOS_QUERY_KEY.
Proof. discriminate. Qed.

Lemma single_key_not_in_user_family (i u : Z) :
  partialMatchKey (SINGLE_TODO_QUERY_KEY i) (USER_TODOS_QUERY_KEY u) = false.
Proof. reflexivity. Qed.

Lemma getQueryData_insert_eq (c : QueryCache) (k : QueryKey) (d : QueryData) :
  getQueryData (<[k := setData d]> c) k = Some d.
Proof. unfold getQueryData. rewrite lookup_insert_eq. reflexivity. Qed.

Lemma getQueryData_insert_ne (c : QueryCache) (k k' : QueryKey) (q : QueryState) :
  k <> k' -> getQueryData (<[k := q]> c) k' = getQueryData c k'.
Proof. intros H. unfold getQueryData. rewrite lookup_insert_ne by exact H. reflexivity. Qed.

Lemma getQueryData_mark_family (c : QueryCache) (queryKey k : QueryKey) :
  getQueryData (mark_family queryKey c) k = getQueryData c k.
Proof.
  unfold getQueryData. rewrite mark_family_lookup.
  destruct (c !! k) as [q|]; simpl; [|reflexivity].
  destruct (partialMatchKey k queryKey); reflexivity.
Qed.

Lemma updateTodo_onSuccess_run (u : Todo) (c : QueryCache) :
  updateTodo_onSuccess u c
  = let c1 := <[SINGLE_TODO_QUERY_KEY (id u) := setData (DTodo u)]> c in
    match getQueryData c TODOS_QUERY_KEY with
    | None =>
        Normal (tt, mark_family (USER_TODOS_QUERY_KEY (userId u))
                      (<[TODOS_QUERY_KEY := setData (DTodos [u])]> c1))
    | Some (DTodos old) =>
        Normal (tt, mark_family (USER_TODOS_QUERY_KEY (userId u))
                      (<[TODOS_QUERY_KEY :=
                           setData (DTodos
                             (List.map (fun todo =>
                                          if Z.eqb (id todo) (id u) then u else todo)
                                       old))]> c1))
    | Some (DTodo _) => Throw "TypeError: oldData.map is not a function"
    end.
Proof.
  unfold updateTodo_onSuccess, bind, setQueryData, ret. simpl.
  rewrite (getQueryData_insert_ne c _ TODOS_QUERY_KEY)
    by apply single_key_not_todos.
  destruct (getQueryData c TODOS_QUERY_KEY) as [[old|t]|]; reflexivity.
Qed.

(** The three key builders never collide: different ids and different owners
    give different keys, and a single-item key is never an owner key nor the
    aggregate key. *)
Theorem query_keys_never_collide (i j u v : Z) :
  (SINGLE_TODO_QUERY_KEY i = SINGLE_TODO_QUERY_KEY j <-> i = j)
  /\ (USER_TODOS_QUERY_KEY u = USER_TODOS_QUERY_KEY v <-> u = v)
  /\ SINGLE_TODO_QUERY_KEY i <> USER_TODOS_QUERY_KEY u
  /\ SINGLE_TODO_QUERY_KEY i <> TODOS_QUERY_KEY
  /\ USER_TODOS_QUERY_KEY u <> TODOS_QUERY_KEY.
Proof.
  repeat split; try discriminate; try (intros ->; reflexivity);
    intros [= H]; exact H.
Qed.

(** Family structure of the keys: every key lies in the family of the
    aggregate key, so invalidating it reaches all of them; the family of one
    owner holds that owner's list only, and neither the aggregate key nor
    any single-item key. *)
Theorem query_key_families (i u v : Z) :
  partialMatchKey TODOS_QUERY_KEY TODOS_QUERY_KEY = true
  /\ partialMatchKey (SINGLE_TODO_QUERY_KEY i) TODOS_QUERY_KEY = true
  /\ partialMatchKey (USER_TODOS_QUERY_KEY u) TODOS_QUERY_KEY = true
  /\ partialMatchKey (USER_TODOS_QUERY_KEY v) (USER_TODOS_QUERY_KEY u)
     = bool_decide (v = u)
  /\ partialMatchKey (SINGLE_TODO_QUERY_KEY i) (USER_TODOS_QUERY_KEY u) = false
  /\ partialMatchKey TODOS_QUERY_KEY (USER_TODOS_QUERY_KEY u) = false
  /\ partialMatchKey TODOS_QUERY_KEY (SINGLE_TODO_QUERY_KEY i) = false.
Proof.
  repeat split; try reflexivity.
  simpl. rewrite !andb_true_r.
  destruct (decide (v = u)) as [->|Hne].
  - rewrite !bool_decide_eq_true_2; reflexivity.
  - rewrite (bool_decide_eq_false_2 (v = u)) by exact Hne.
    apply bool_decide_eq_false_2. intros [= H]. contradiction.
Qed.

Lemma map_replace_ids (u : Todo) (old : list Todo) :
  List.map id (List.map (fun todo => if Z.eqb (id todo) (id u) then u else todo) old)
  = List.map id old.
Proof.
  induction old as [|t old IH]; simpl; [reflexivity|]. rewrite IH.
  destruct (Z.eqb (id t) (id u)) eqn:E; [|reflexivity].
  apply Z.eqb_eq in E. rewrite E. reflexivity.
Qed.

Lemma find_after_filter (i : Z) (old : list Todo) :
  List.find (fun todo => Z.eqb (id todo) i)
            (List.filter (fun todo => negb (Z.eqb (id todo) i)) old) = None.
Proof.
  induction old as [|t old IH]; simpl; [reflexivity|].
  destruct (Z.eqb (id t) i) eqn:E; simpl; [exact IH|]. rewrite E. exact IH.
Qed.

(** After a successful update the handler completes; the single-item entry
    of the returned item holds that item; every query of its owner's family
    is marked invalidated; and under every key other than the aggregate one
    and that single-item key the stored data is what it was. *)
Theorem updateTodo_onSuccess_writes (c : QueryCache) (u : Todo) :
  todos_entry_typed c ->
  exists c',
    updateTodo_onSuccess u c = Normal (tt, c')
    /\ getQueryData c' (SINGLE_TODO_QUERY_KEY (id u)) = Some (DTodo u)
    /\ (forall k q,
          partialMatchKey k (USER_TODOS_QUERY_KEY (userId u)) = true ->
          c !! k = Some q -> c' !! k = Some (invalidate q))
    /\ (forall k,
          k <> TODOS_QUERY_KEY -> k <> SINGLE_TODO_QUERY_KEY (id u) ->
          data <$> c' !! k = data <$> c !! k).
Proof.
  intros Htyped. rewrite updateTodo_onSuccess_run. cbv zeta.
  assert (Hgen : forall d,
    let c' := mark_family (USER_TODOS_QUERY_KEY (userId u))
                (<[TODOS_QUERY_KEY := setData d]>
                   (<[SINGLE_TODO_QUERY_KEY (id u) := setData (DTodo u)]> c)) in
    getQueryData c' (SINGLE_TODO_QUERY_KEY (id u)) = Some (DTodo u)
    /\ (forall k q,
          partialMatchKey k (USER_TODOS_QUERY_KEY (userId u)) = true ->
          c !! k = Some q -> c' !! k = Some (invalidate q))
    /\ (forall k,
          k <> TODOS_QUERY_KEY -> k <> SINGLE_TODO_QUERY_KEY (id u) ->
          data <$> c' !! k = data <$> c !! k)).
  { intros d c'. subst c'. repeat split.
    - rewrite getQueryData_mark_family, getQueryData_insert_ne
        by (intros H; symmetry in H; revert H; apply single_key_not_todos).
      apply getQueryData_insert_eq.
    - intros k q Hm Hk. apply mark_family_hit; [exact Hm|].
      rewrite !lookup_insert_ne; [exact Hk| |].
      + intros <-. rewrite single_key_not_in_user_family in Hm. discriminate.
      + intros <-. rewrite todos_key_not_in_user_family in Hm. discriminate.
    - intros k Hk1 Hk2. rewrite mark_family_data.
      rewrite !lookup_insert_ne by congruence. reflexivity. }
  destruct (getQueryData c TODOS_QUERY_KEY) as [[old|t]|] eqn:Hold.
  - eexists. split; [reflexivity|]. apply Hgen.
  - destruct (Htyped t Hold).
  - eexists. split; [reflexivity|]. apply Hgen.
Qed.

Lemma updateTodo_onSuccess_writes_witness :
  exists c',
    updateTodo_onSuccess buy_milk_done warm_cache = Normal (tt, c')
    /\ getQueryData c' (SINGLE_TODO_QUERY_KEY 1) = Some (DTodo buy_milk_done)
    /\ c' !! USER_TODOS_QUERY_KEY 7
       = Some {| data := Some (DTodos [buy_milk]); isInvalidated := true |}.
Proof.
  destruct (updateTodo_onSuccess_writes warm_cache buy_milk_done)
    as (c' & Hrun & Hsingle & Hfam & _).
  - intros t H. vm_compute in H. discriminate H.
  - exists c'. split; [exact Hrun|]. split; [exact Hsingle|].
    apply (Hfam (USER_TODOS_QUERY_KEY 7) (fresh (DTodos [buy_milk])));
      reflexivity.
Defined.

(** On an aggregate list that is present, a successful update keeps the
    length and the order of ids, puts the returned item at every position
    whose id matches (all of them, not only the first), and leaves the other
    items in place. *)
Theorem updateTodo_onSuccess_list
    (c : QueryCache) (u : Todo) (old : list Todo) :
  getQueryData c TODOS_QUERY_KEY = Some (DTodos old) ->
  exists c' new,
    updateTodo_onSuccess u c = Normal (tt, c')
    /\ getQueryData c' TODOS_QUERY_KEY = Some (DTodos new)
    /\ List.map id new = List.map id old
    /\ (forall n t,
          nth_error old n = Some t ->
          nth_error new n = Some (if Z.eqb (id t) (id u) then u else t)).
Proof.
  intros Hold. rewrite updateTodo_onSuccess_run. cbv zeta. rewrite Hold.
  eexists. eexists. split; [reflexivity|]. split; [|split].
  - rewrite getQueryData_mark_family. apply getQueryData_insert_eq.
  - apply map_replace_ids.
  - intros n t Hn. rewrite nth_error_map, Hn. reflexivity.
Qed.

Lemma updateTodo_onSuccess_list_witness :
  exists c' new,
    updateTodo_onSuccess buy_milk_done warm_cache = Normal (tt, c')
    /\ getQueryData c' TODOS_QUERY_KEY = Some (DTodos new)
    /\ List.map id new = [1%Z]
    /\ nth_error new 0 = Some buy_milk_done.
Proof.
  destruct (updateTodo_onSuccess_list warm_cache buy_milk_done [buy_milk] eq_refl)
    as (c' & new & Hrun & Hnew & Hids & Hnth).
  exists c', new. split; [exact Hrun|]. split; [exact Hnew|].
  split; [exact Hids|]. apply (Hnth 0%nat buy_milk). reflexivity.
Defined.

(** When no aggregate list is cached, a successful update starts one that
    holds the returned item alone. *)
Theorem updateTodo_onSuccess_without_list (c : QueryCache) (u : Todo) :
  getQueryData c TODOS_QUERY_KEY = None ->
  exists c',
    updateTodo_onSuccess u c = Normal (tt, c')
    /\ getQueryData c' TODOS_QUERY_KEY = Some (DTodos [u]).
Proof.
  intros Hnone. rewrite updateTodo_onSuccess_run. cbv zeta. rewrite Hnone.
  eexists. split; [reflexivity|].
  rewrite getQueryData_mark_family. apply getQueryData_insert_eq.
Qed.

Lemma updateTodo_onSuccess_without_list_witness :
  exists c',
    updateTodo_onSuccess walk_dog cold_cache = Normal (tt, c')
    /\ getQueryData c' TODOS_QUERY_KEY = Some (DTodos [walk_dog]).
Proof.
  apply (updateTodo_onSuccess_without_list cold_cache walk_dog). reflexivity.
Defined.

(** After a successful delete the aggregate entry holds a list, and no item
    of that list carries the deleted id. *)
Theorem deleteTodo_onSuccess_removes (c : QueryCache) (i : Z) :
  todos_entry_typed c ->
  exists c' l,
    deleteTodo_onSuccess i c = Normal (tt, c')
    /\ getQueryData c' TODOS_QUERY_KEY = Some (DTodos l)
    /\ (forall t, In t l -> id t <> i)
    /\ (forall old t,
          getQueryData c TODOS_QUERY_KEY = Some (DTodos old) ->
          In t old -> id t <> i -> In t l).
Proof.
  intros Htyped. rewrite deleteTodo_onSuccess_run.
  destruct (getQueryData c TODOS_QUERY_KEY) as [[old|t0]|] eqn:Hold.
  - eexists. eexists. split; [reflexivity|].
    split; [apply getQueryData_insert_eq|]. split.
    + intros t Ht. apply filter_In in Ht as [_ Ht].
      apply Z.eqb_neq, negb_true_iff, Ht.
    + intros old' t [= <-] Ht Hne. apply filter_In. split; [exact Ht|].
      apply negb_true_iff, Z.eqb_neq, Hne.
  - destruct (Htyped t0 Hold).
  - eexists. eexists. split; [reflexivity|].
    split; [apply getQueryData_insert_eq|]. split.
    + intros t [].
    + intros old t [=].
Qed.

Lemma deleteTodo_onSuccess_removes_witness :
  exists c' l,
    deleteTodo_onSuccess 1 warm_cache = Normal (tt, c')
    /\ getQueryData c' TODOS_QUERY_KEY = Some (DTodos l)
    /\ (forall t, In t l -> id t <> 1%Z).
Proof.
  destruct (deleteTodo_onSuccess_removes warm_cache 1)
    as (c' & l & Hrun & Hl & Hno & _).
  - intros t H. vm_compute in H. discriminate H.
  - exists c', l. split; [exact Hrun|]. split; [exact Hl | exact Hno].
Defined.

(** Running the delete handler a second time with the same id changes
    nothing: the cache it leaves is a fixed point. *)
Theorem deleteTodo_onSuccess_twice (c c' : QueryCache) (i : Z) :
  deleteTodo_onSuccess i c = Normal (tt, c') ->
  deleteTodo_onSuccess i c' = Normal (tt, c').
Proof.
  intros Hrun. rewrite deleteTodo_onSuccess_run in Hrun.
  rewrite deleteTodo_onSuccess_run.
  destruct (getQueryData c TODOS_QUERY_KEY) as [[old|t0]|];
    [| discriminate Hrun |]; injection Hrun as <-.
  - rewrite getQueryData_insert_eq, find_after_filter.
    rewrite TodosSliceFacts.filter_idem, insert_insert_eq. reflexivity.
  - rewrite getQueryData_insert_eq. simpl. rewrite insert_insert_eq. reflexivity.
Qed.

Lemma deleteTodo_onSuccess_twice_witness :
  exists c',
    deleteTodo_onSuccess 1 warm_cache = Normal (tt, c')
    /\ deleteTodo_onSuccess 1 c' = Normal (tt, c').
Proof.
  eexists. split.
  - rewrite deleteTodo_onSuccess_run. reflexivity.
  - apply (deleteTodo_onSuccess_twice warm_cache _ 1).
    rewrite deleteTodo_onSuccess_run. reflexivity.
Defined.

(** A successful delete leaves every single-item entry as it was, the entry
    of the deleted item included: it is neither removed nor invalidated. *)
Theorem deleteTodo_onSuccess_keeps_single_entries (c : QueryCache) (i : Z) :
  todos_entry_typed c ->
  exists c',
    deleteTodo_onSuccess i c = Normal (tt, c')
    /\ (forall j, c' !! SINGLE_TODO_QUERY_KEY j = c !! SINGLE_TODO_QUERY_KEY j).
Proof.
  intros Htyped. rewrite deleteTodo_onSuccess_run.
  destruct (getQueryData c TODOS_QUERY_KEY) as [[old|t0]|] eqn:Hold.
  - eexists. split; [reflexivity|]. intros j.
    rewrite lookup_insert_ne
      by (intros H; symmetry in H; revert H; apply single_key_not_todos).
    destruct (List.find _ old) as [t|]; [|reflexivity].
    apply mark_family_miss, single_key_not_in_user_family.
  - destruct (Htyped t0 Hold).
  - eexists. split; [reflexivity|]. intros j.
    apply lookup_insert_ne.
    intros H; symmetry in H; revert H; apply single_key_not_todos.
Qed.

Lemma deleteTodo_onSuccess_keeps_single_entries_witness :
  exists c',
    deleteTodo_onSuccess 1 warm_cache = Normal (tt, c')
    /\ c' !! SINGLE_TODO_QUERY_KEY 1 = Some (fresh (DTodo buy_milk)).
Proof.
  destruct (deleteTodo_onSuccess_keeps_single_entries warm_cache 1)
    as (c' & Hrun & Hsingle).
  - intros t H. vm_compute in H. discriminate H.
  - exists c'. split; [exact Hrun|]. rewrite Hsingle. reflexivity.
Defined.

(** Create followed by delete of the created item gives back the aggregate
    list, provided no item already in the list carried the new id. *)
Theorem create_then_delete_restores_list
    (c : QueryCache) (newTodo : Todo) (old : list Todo) :
  getQueryData c TODOS_QUERY_KEY = Some (DTodos old) ->
  (forall t, In t old -> id t <> id newTodo) ->
  exists c1 c2,
    createTodo_onSuccess newTodo c = Normal (tt, c1)
    /\ deleteTodo_onSuccess (id newTodo) c1 = Normal (tt, c2)
    /\ getQueryData c2 TODOS_QUERY_KEY = Some (DTodos old).
Proof.
  intros Hold Hfresh. rewrite createTodo_onSuccess_run, Hold.
  eexists. eexists. split; [reflexivity|].
  rewrite deleteTodo_onSuccess_run.
  rewrite getQueryData_mark_family, getQueryData_insert_eq.
  simpl. rewrite Z.eqb_refl. simpl.
  rewrite TodosSliceFacts.filter_all.
  - split; [reflexivity|]. apply getQueryData_insert_eq.
  - intros t Ht. apply negb_true_iff, Z.eqb_neq, Hfresh, Ht.
Qed.

Lemma create_then_delete_restores_list_witness :
  exists c1 c2,
    createTodo_onSuccess walk_dog warm_cache = Normal (tt, c1)
    /\ deleteTodo_onSuccess 2 c1 = Normal (tt, c2)
    /\ getQueryData c2 TODOS_QUERY_KEY = Some (DTodos [buy_milk]).
Proof.
  apply (create_then_delete_restores_list warm_cache walk_dog [buy_milk]).
  - reflexivity.
  - intros t [<-|[]]. discriminate.
Defined.

End CacheFacts.

Module FacadeMoreFacts.
Import Types Interceptors InterceptorFacts TodoApi Fixtures MoreFixtures.

Lemma purge_and_redirect_wire (rt : Runtime) :
  wire (purge_and_redirect rt) = wire rt
  /\ console (purge_and_redirect rt) = console rt.
Proof.
  unfold purge_and_redirect. destruct (window rt); split; reflexivity.
Qed.

Lemma onResponseError_wire (rt : Runtime) (error : AxiosError) :
  wire (fst (onResponseError rt error)) = wire rt.
Proof.
  unfold onResponseError.
  destruct (status_is error 401), (status_is error 403), (status_is error 429);
    simpl; try apply purge_and_redirect_wire; reflexivity.
Qed.

(** The error side without a response (nothing came back) does nothing but
    reject. *)
Lemma onResponseError_no_response (rt : Runtime) :
  onResponseError rt {| response := None |}
  = (rt, Rejected {| response := None |}).
Proof. reflexivity. Qed.

(** The error side on a response, by status. *)
Lemma onResponseError_by_status (rt : Runtime) (r : AxiosResponse) :
  fst (onResponseError rt {| response := Some r |})
  = if Z.eqb (status r) 401 then purge_and_redirect rt
    else if Z.eqb (status r) 403 then console_error "Access forbidden" rt
    else if Z.eqb (status r) 429 then console_error "Rate limit exceeded" rt
    else rt.
Proof.
  unfold onResponseError. rewrite !status_is_of_response.
  destruct (Z.eqb (status r) 401) eqn:E1.
  - apply Z.eqb_eq in E1. rewrite E1. reflexivity.
  - destruct (Z.eqb (status r) 403) eqn:E3.
    + apply Z.eqb_eq in E3. rewrite E3. reflexivity.
    + destruct (Z.eqb (status r) 429); reflexivity.
Qed.

Lemma call_runtime (adapter : Adapter) (rt : Runtime) (c : Call) :
  fst (call adapter rt c) = fst (request adapter rt (config_of c)).
Proof.
  unfold call. destruct (request adapter rt (config_of c)) as [rt' [r|e]];
    reflexivity.
Qed.

Lemma validateStatus_iff (s : Z) :
  validateStatus s = true <-> (200 <= s < 300)%Z.
Proof.
  unfold validateStatus. rewrite andb_true_iff, Z.leb_le, Z.ltb_lt. reflexivity.
Qed.

Lemma settles_iff (s : Z) :
  settles s = true <-> s = 0%Z \/ (200 <= s < 300)%Z.
Proof.
  unfold settles. rewrite orb_true_iff, Z.eqb_eq, validateStatus_iff.
  reflexivity.
Qed.

Lemma config_of_headers (c : Call) : headers (config_of c) = default_headers.
Proof. destruct c; reflexivity. Qed.

(** Every facade call, however it ends, hands exactly one request to the
    transport: the call's own request, with its method, address, query and
    body, and with [Content-Type: application/json]. *)
Theorem call_sends_exactly_one_request
    (adapter : Adapter) (rt : Runtime) (c : Call) :
  exists sent,
    wire (fst (call adapter rt c)) = (wire rt ++ [sent])%list
    /\ method sent = method (config_of c)
    /\ url sent = url (config_of c)
    /\ params sent = params (config_of c)
    /\ data sent = data (config_of c)
    /\ headers sent !! "Content-Type" = Some "application/json".
Proof.
  exists (onRequest rt (config_of c)). split.
  - rewrite call_runtime. unfold request.
    destruct (adapter (onRequest rt (config_of c))) as [r|].
    + destruct (settles (status r)); [reflexivity|].
      rewrite onResponseError_wire. reflexivity.
    + rewrite onResponseError_wire. reflexivity.
  - destruct (FacadeFacts.onRequest_fields rt (config_of c)) as (Hm & Hu & Hp & Hd).
    repeat split; try assumption.
    unfold onRequest, set_header. simpl. apply lookup_insert_eq.
Qed.

(** A facade call resolves exactly when the transport answered with a
    status that axios settles as a success: from 200 to 299, or the falsy
    status zero. Every other answer, and no answer, rejects. *)
Theorem call_resolves_iff_settled (adapter : Adapter) (rt : Runtime) (c : Call) :
  (exists p, snd (call adapter rt c) = Resolved p)
  <-> (exists r, adapter (onRequest rt (config_of c)) = Some r
                 /\ (status r = 0%Z \/ (200 <= status r < 300)%Z)).
Proof.
  unfold call, request.
  destruct (adapter (onRequest rt (config_of c))) as [r|] eqn:Ha.
  - destruct (settles (status r)) eqn:Hv; simpl.
    + split; [|eauto]. intros _. exists r. split; [reflexivity|].
      apply settles_iff, Hv.
    + split.
      * intros [p Hp]. discriminate Hp.
      * intros [r' [[= <-] Hr]]. apply settles_iff in Hr. congruence.
  - simpl. split.
    + intros [p Hp]. discriminate Hp.
    + intros [r [Hr _]]. discriminate Hr.
Qed.

(** On a 2xx answer the call resolves with the response body ([deleteTodo]
    with nothing), and the browser state and the console are untouched. *)
Theorem call_success_leaves_runtime
    (adapter : Adapter) (rt : Runtime) (c : Call) (r : AxiosResponse) :
  adapter (onRequest rt (config_of c)) = Some r ->
  (200 <= status r < 300)%Z ->
  snd (call adapter rt c)
  = Resolved (match c with deleteTodo _ => NoContent | _ => payload r end)
  /\ window (fst (call adapter rt c)) = window rt
  /\ console (fst (call adapter rt c)) = console rt.
Proof.
  intros Ha Hs.
  assert (Hv : settles (status r) = true) by (apply settles_iff; right; exact Hs).
  unfold call, request. rewrite Ha, Hv. simpl. repeat split; reflexivity.
Qed.

Lemma call_success_leaves_runtime_witness :
  snd (call (serves [buy_milk]) browser_with_token getAllTodos)
  = Resolved (ManyTodos [buy_milk])
  /\ window (fst (call (serves [buy_milk]) browser_with_token getAllTodos))
     = window browser_with_token
  /\ console (fst (call (serves [buy_milk]) browser_with_token getAllTodos))
     = console browser_with_token.
Proof.
  apply (call_success_leaves_runtime
           (serves [buy_milk]) browser_with_token getAllTodos
           {| status := 200; payload := ManyTodos [buy_milk] |}).
  - reflexivity.
  - simpl. lia.
Defined.

(** When nothing comes back from the transport, the call rejects with an
    error that has no response; nothing is logged and the stored credential
    and the location stay. *)
Theorem call_unreachable_rejects_quietly
    (adapter : Adapter) (rt : Runtime) (c : Call) :
  adapter (onRequest rt (config_of c)) = None ->
  snd (call adapter rt c) = Rejected {| response := None |}
  /\ window (fst (call adapter rt c)) = window rt
  /\ console (fst (call adapter rt c)) = console rt.
Proof.
  intros Ha. unfold call, request. rewrite Ha, onResponseError_no_response.
  simpl. repeat split; reflexivity.
Qed.

Lemma call_unreachable_rejects_quietly_witness :
  snd (call unreachable browser_with_token (deleteTodo 1))
  = Rejected {| response := None |}
  /\ window (fst (call unreachable browser_with_token (deleteTodo 1)))
     = window browser_with_token
  /\ console (fst (call unreachable browser_with_token (deleteTodo 1)))
     = console browser_with_token.
Proof.
  apply (call_unreachable_rejects_quietly
           unreachable browser_with_token (deleteTodo 1)).
  reflexivity.
Defined.

(** The browser state (stored credential, location) changes during a facade
    call only if the transport answered 401. *)
Theorem window_changes_only_on_401
    (adapter : Adapter) (rt : Runtime) (c : Call) :
  window (fst (call adapter rt c)) <> window rt ->
  exists r, adapter (onRequest rt (config_of c)) = Some r /\ status r = 401%Z.
Proof.
  rewrite call_runtime. unfold request.
  destruct (adapter (onRequest rt (config_of c))) as [r|].
  - destruct (settles (status r)).
    + intros H. destruct H. reflexivity.
    + rewrite onResponseError_by_status.
      destruct (Z.eqb (status r) 401) eqn:E1.
      * intros _. exists r. split; [reflexivity | apply Z.eqb_eq, E1].
      * destruct (Z.eqb (status r) 403), (Z.eqb (status r) 429);
          intros H; destruct H; reflexivity.
  - rewrite onResponseError_no_response. intros H. destruct H. reflexivity.
Qed.

Lemma window_changes_only_on_401_witness :
  exists r,
    answers 401 (onRequest browser_with_token (config_of getAllTodos)) = Some r
    /\ status r = 401%Z.
Proof.
  apply (window_changes_only_on_401 (answers 401) browser_with_token getAllTodos).
  intros H. vm_compute in H. discriminate H.
Defined.

(** The interceptors print to the console during a facade call only if the
    transport answered 403 or 429, and then exactly one line. *)
Theorem console_changes_only_on_403_429
    (adapter : Adapter) (rt : Runtime) (c : Call) :
  console (fst (call adapter rt c)) <> console rt ->
  exists r line,
    adapter (onRequest rt (config_of c)) = Some r
    /\ (status r = 403%Z \/ status r = 429%Z)
    /\ console (fst (call adapter rt c)) = (console rt ++ [line])%list.
Proof.
  rewrite call_runtime. unfold request.
  destruct (adapter (onRequest rt (config_of c))) as [r|].
  - destruct (settles (status r)).
    + intros H. destruct H. reflexivity.
    + rewrite onResponseError_by_status.
      destruct (Z.eqb (status r) 401) eqn:E1.
      * intros H. destruct H.
        rewrite (proj2 (purge_and_redirect_wire _)). reflexivity.
      * destruct (Z.eqb (status r) 403) eqn:E3.
        -- intros _. exists r, "Access forbidden".
           split; [reflexivity|]. split; [left; apply Z.eqb_eq, E3 | reflexivity].
        -- destruct (Z.eqb (status r) 429) eqn:E9.
           ++ intros _. exists r, "Rate limit exceeded".
              split; [reflexivity|].
              split; [right; apply Z.eqb_eq, E9 | reflexivity].
           ++ intros H. destruct H. reflexivity.
  - rewrite onResponseError_no_response. intros H. destruct H. reflexivity.
Qed.

Lemma console_changes_only_on_403_429_witness :
  exists r line,
    answers 429 (onRequest server_side (config_of getAllTodos)) = Some r
    /\ (status r = 403%Z \/ status r = 429%Z)
    /\ console (fst (call (answers 429) server_side getAllTodos))
       = (console server_side ++ [line])%list.
Proof.
  apply (console_changes_only_on_403_429 (answers 429) server_side getAllTodos).
  intros H. vm_compute in H. discriminate H.
Defined.

Lemma set_header_twice (k1 k2 v1 v2 : string) (config : AxiosRequestConfig) :
  set_header k2 v2 (set_header k1 v1 (set_header k2 v2 (set_header k1 v1 config)))
  = set_header k2 v2 (set_header k1 v1 config).
Proof.
  unfold set_header. simpl. f_equal.
  apply map_eq. intros k. rewrite !lookup_insert.
  repeat case_decide; reflexivity.
Qed.

(** Passing a request through the request interceptor a second time changes
    nothing. *)
Theorem onRequest_idempotent (rt : Runtime) (config : AxiosRequestConfig) :
  onRequest rt (onRequest rt config) = onRequest rt config.
Proof.
  unfold onRequest. destruct (authToken rt) as [t|]; simpl.
  - destruct (negb (String.eqb t "")).
    + apply set_header_twice.
    + unfold set_header. simpl. rewrite insert_insert_eq. reflexivity.
  - unfold set_header. simpl. rewrite insert_insert_eq. reflexivity.
Qed.

(** Once a facade call has been answered with 401, the next facade call made
    from the runtime it leaves goes out without an [Authorization] header. *)
Theorem after_401_next_request_has_no_bearer
    (adapter : Adapter) (rt : Runtime) (c next : Call) (r : AxiosResponse) :
  adapter (onRequest rt (config_of c)) = Some r ->
  status r = 401%Z ->
  headers (onRequest (fst (call adapter rt c)) (config_of next))
    !! "Authorization" = None.
Proof.
  intros Ha Hs.
  assert (Htok : authToken (fst (call adapter rt c)) = None).
  { rewrite call_runtime. unfold request. rewrite Ha.
    replace (settles (status r)) with false by (rewrite Hs; reflexivity).
    rewrite onResponseError_by_status, Hs. simpl. apply authToken_purged. }
  unfold onRequest. rewrite Htok. simpl.
  rewrite lookup_insert_ne by discriminate.
  rewrite config_of_headers. reflexivity.
Qed.

Lemma after_401_next_request_has_no_bearer_witness :
  headers (onRequest (fst (call (answers 401) browser_with_token getAllTodos))
                     (config_of (getTodoById 1)))
    !! "Authorization" = None.
Proof.
  apply (after_401_next_request_has_no_bearer
           (answers 401) browser_with_token getAllTodos (getTodoById 1)
           {| status := 401; payload := NoContent |});
    reflexivity.
Defined.

Lemma todo_url_inj (i j : Z) : todo_url i = todo_url j -> i = j.
Proof.
  unfold todo_url, ApiConfig.ROUTES_TODOS. intros H.
  cbn [String.append] in H. injection H as H.
  apply pretty_Z_inj, H.
Qed.

Lemma todo_url_not_collection (i : Z) : todo_url i <> ApiConfig.ROUTES_TODOS.
Proof.
  unfold todo_url, ApiConfig.ROUTES_TODOS. cbn [String.append]. discriminate.
Qed.

(** Different facade calls produce different requests: method, address,
    query and body together identify the call. *)
Theorem config_of_distinguishes_calls (c1 c2 : Call) :
  c1 <> c2 -> config_of c1 <> config_of c2.
Proof.
  intros Hne Heq. apply Hne. clear Hne.
  destruct c1 as [|i1|u1|p1|i1 p1|i1], c2 as [|i2|u2|p2|i2 p2|i2];
    try reflexivity; try discriminate Heq.
  - f_equal. apply todo_url_inj. exact (f_equal url Heq).
  - f_equal. apply pretty_Z_inj. injection Heq as Heq. exact Heq.
  - f_equal. injection Heq as Heq. exact Heq.
  - f_equal.
    + apply todo_url_inj. exact (f_equal url Heq).
    + injection (f_equal data Heq) as Hp. exact Hp.
  - f_equal. apply todo_url_inj. exact (f_equal url Heq).
Qed.

Lemma config_of_distinguishes_calls_witness :
  config_of (getTodoById 1) <> config_of (deleteTodo 1).
Proof.
  apply (config_of_distinguishes_calls (getTodoById 1) (deleteTodo 1)).
  discriminate.
Defined.

End FacadeMoreFacts.

Module ProxyMoreFacts.
Import Proxy ProxyFacts.

(** A path the matcher selects is never one of the callback's public
    routes: wherever the proxy runs, the allow-list inside [authorized]
    admits nothing. *)
Theorem matcher_selects_no_public_route (pathname : string) :
  matcher pathname = true -> isPublicRoute pathname = false.
Proof.
  intros Hm. apply matcher_excludes_public, Hm.
Qed.

Lemma matcher_selects_no_public_route_witness :
  isPublicRoute "/api/protected/items" = false.
Proof.
  apply (matcher_selects_no_public_route "/api/protected/items"). reflexivity.
Defined.


(** The matcher selects paths that next-auth then lets through unchecked:
    everything under the [/_next] prefix other than the two excluded
    namespaces. *)
Example next_prefix_selected_but_admitted :
  matcher "/_next/data/build/index.json" = true
  /\ middleware true Absent
       {| nextUrl_pathname := "/_next/data/build/index.json";
          nextUrl_search := "" |} = Admit.
Proof. split; reflexivity. Qed.


(** The dot of [favicon.ico] in the exclusion list stands for any character:
    a path such as [/favicon-ico...] is outside the matcher as well. *)
Theorem favicon_dot_excludes_any_character
    (c : CredentialState) (ch : ascii) (rest : string) :
  is_line_terminator ch = false ->
  matcher ("/favicon" ++ String ch ("ico" ++ rest)) = false
  /\ proxy c ("/favicon" ++ String ch ("ico" ++ rest)) = Admit.
Proof.
  intros Hch.
  assert (Hm : matcher ("/favicon" ++ String ch ("ico" ++ rest)) = false).
  { unfold matcher, matches_catch_all, Js.some, excluded. simpl.
    rewrite Hch. reflexivity. }
  split; [exact Hm|]. unfold proxy. rewrite Hm. reflexivity.
Qed.

Lemma favicon_dot_excludes_any_character_witness :
  matcher "/favicon-ico" = false /\ proxy Absent "/favicon-ico" = Admit.
Proof.
  apply (favicon_dot_excludes_any_character Absent "-"%char ""). reflexivity.
Defined.

End ProxyMoreFacts.

Module ClientGuardsFacts.
Import ClientGuards.

(** The two pages never redirect at the same session status, and neither
    redirects while the session is loading: [Home] sends to [/login] only
    when unauthenticated, [LoginPage] sends to [/] only when authenticated. *)
Theorem pages_never_both_redirect (status : SessionStatus) :
  (Home_effect status = None \/ LoginPage_effect status = None)
  /\ (Home_effect status = Some "/login" <-> status = unauthenticated)
  /\ (LoginPage_effect status = Some "/" <-> status = authenticated)
  /\ Home_effect loading = None
  /\ LoginPage_effect loading = None.
Proof.
  destruct status; simpl; repeat split; auto; discriminate.
Qed.

End ClientGuardsFacts.
